(** * Event ingest and classification core of the eBPF tracer

    A shallow embedding of [pkg/internal/ebpf/common]: [common.go],
    [httpfltr_transform.go] and [tcp_detect_transform.go].

    Go strings and byte slices are sequences of bytes: [list ascii].  Go's
    [int] is [Z]; the fixed-width conversions the code performs are written
    out.  Functions of Go's standard library are modelled in [Module Go];
    code of other packages of the repository and generated struct layouts are
    Section variables. *)

From Stdlib Require Import ZArith List Ascii String Bool Lia DecimalString.
Import ListNotations.

Open Scope Z_scope.

(** ** Bytes and strings *)

Definition bytes := list ascii.

Coercion list_ascii_of_string : string >-> list.

Definition byteZ (c : ascii) : Z := Z.of_N (N_of_ascii c).
Definition byte_of_Z (z : Z) : ascii := ascii_of_N (Z.to_N (z mod 256)).

Definition len (s : bytes) : Z := Z.of_nat (List.length s).

Definition NUL : ascii := "000"%char.
Definition TAB : ascii := "009"%char.
Definition LF : ascii := "010"%char.
Definition CR : ascii := "013"%char.
Definition SP : ascii := " "%char.
Definition QMARK : ascii := "?"%char.

(** Go's slice expression [s[lo:hi]].  It is defined when
    [0 <= lo <= hi <= len(s)] and is a run-time panic otherwise:
    [slice_ok] is that condition, [slice] the value where it holds. *)
Definition slice_ok (s : bytes) (lo hi : Z) : bool :=
  (0 <=? lo) && (lo <=? hi) && (hi <=? len s).

Definition slice (s : bytes) (lo hi : Z) : bytes :=
  firstn (Z.to_nat (hi - lo)) (skipn (Z.to_nat lo) s).

(** A Go call either returns or panics. *)
Inductive runtime (A : Type) : Type :=
| Returns (a : A)
| Panics.
Arguments Returns {A} a.
Arguments Panics {A}.

Module Go.

(** [bytes.HasPrefix] / [strings.HasPrefix]. *)
Fixpoint HasPrefix (s p : bytes) {struct p} : bool :=
  match p, s with
  | [], _ => true
  | _ :: _, [] => false
  | a :: p', b :: s' => Ascii.eqb a b && HasPrefix s' p'
  end.

(** The scan shared by the index functions: the least [i] such that the
    suffix [s[i:]] satisfies [p], or [-1]. *)
Fixpoint indexWhere (p : bytes -> bool) (s : bytes) : Z :=
  if p s then 0
  else match s with
       | [] => -1
       | _ :: s' => let i := indexWhere p s' in if i <? 0 then -1 else i + 1
       end.

(** The suffix is not empty and its first byte satisfies [f]. *)
Definition headIs (f : ascii -> bool) (s : bytes) : bool :=
  match s with
  | [] => false
  | a :: _ => f a
  end.

(** [strings.IndexByte] / [bytes.IndexByte]. *)
Definition IndexByte (s : bytes) (c : ascii) : Z := indexWhere (headIs (Ascii.eqb c)) s.

(** [strings.Index]. *)
Definition Index (s sub : bytes) : Z := indexWhere (fun t => HasPrefix t sub) s.

(** [strings.IndexAny] for a set [chars] of ASCII characters: such a
    character is a byte of [s] exactly where it is a code point of [s]. *)
Definition IndexAny (s chars : bytes) : Z :=
  indexWhere (headIs (fun a => existsb (Ascii.eqb a) chars)) s.

(** [strings.Contains]. *)
Definition Contains (s sub : bytes) : bool := 0 <=? Index s sub.

(** [bytealg.LastIndexByteString], the [last] of package [net]. *)
Fixpoint LastIndexByte (s : bytes) (c : ascii) : Z :=
  match s with
  | [] => -1
  | a :: s' =>
      let i := LastIndexByte s' c in
      if 0 <=? i then i + 1 else if Ascii.eqb a c then 0 else -1
  end.

(** *** unicode/utf8 *)

Definition RuneError : Z := 0xFFFD.
Definition MaxRune : Z := 0x10FFFF.
Definition RuneSelf : Z := 0x80.

Definition between (lo hi : Z) (c : ascii) : bool :=
  (lo <=? byteZ c) && (byteZ c <=? hi).

Definition low6 (c : ascii) : Z := Z.land (byteZ c) 0x3F.

(** [utf8.DecodeRuneInString]: the rune at the head of [s] and its width
    in bytes; [(RuneError, 1)] for a byte that starts no valid encoding,
    [(RuneError, 0)] for the empty string. *)
Definition DecodeRune (s : bytes) : Z * nat :=
  match s with
  | [] => (RuneError, 0%nat)
  | c0 :: t =>
      let b0 := byteZ c0 in
      if b0 <? RuneSelf then (b0, 1%nat)
      else if (b0 <? 0xC2) || (0xF4 <? b0) then (RuneError, 1%nat)
      else if b0 <? 0xE0 then
        match t with
        | c1 :: _ =>
            if between 0x80 0xBF c1
            then (Z.lor (Z.shiftl (Z.land b0 0x1F) 6) (low6 c1), 2%nat)
            else (RuneError, 1%nat)
        | _ => (RuneError, 1%nat)
        end
      else if b0 <? 0xF0 then
        let lo := if b0 =? 0xE0 then 0xA0 else 0x80 in
        let hi := if b0 =? 0xED then 0x9F else 0xBF in
        match t with
        | c1 :: c2 :: _ =>
            if between lo hi c1 && between 0x80 0xBF c2
            then (Z.lor (Z.shiftl (Z.land b0 0x0F) 12)
                    (Z.lor (Z.shiftl (low6 c1) 6) (low6 c2)), 3%nat)
            else (RuneError, 1%nat)
        | _ => (RuneError, 1%nat)
        end
      else
        let lo := if b0 =? 0xF0 then 0x90 else 0x80 in
        let hi := if b0 =? 0xF4 then 0x8F else 0xBF in
        match t with
        | c1 :: c2 :: c3 :: _ =>
            if between lo hi c1 && between 0x80 0xBF c2 && between 0x80 0xBF c3
            then (Z.lor (Z.shiftl (Z.land b0 0x07) 18)
                    (Z.lor (Z.shiftl (low6 c1) 12)
                       (Z.lor (Z.shiftl (low6 c2) 6) (low6 c3))), 4%nat)
            else (RuneError, 1%nat)
        | _ => (RuneError, 1%nat)
        end
  end.

Definition contByte (z : Z) : ascii := byte_of_Z (Z.lor 0x80 (Z.land z 0x3F)).

(** [utf8.AppendRune], as [strings.Builder.WriteRune] uses it: a surrogate
    or a value past [MaxRune] is written as [RuneError]. *)
Definition EncodeRune (r : Z) : bytes :=
  if r <? 0 then [byte_of_Z 0xEF; byte_of_Z 0xBF; byte_of_Z 0xBD]
  else if r <=? 0x7F then [byte_of_Z r]
  else if r <=? 0x7FF then [byte_of_Z (Z.lor 0xC0 (Z.shiftr r 6)); contByte r]
  else if (MaxRune <? r) || ((0xD800 <=? r) && (r <=? 0xDFFF))
       then [byte_of_Z 0xEF; byte_of_Z 0xBF; byte_of_Z 0xBD]
  else if r <=? 0xFFFF
       then [byte_of_Z (Z.lor 0xE0 (Z.shiftr r 12)); contByte (Z.shiftr r 6); contByte r]
  else [byte_of_Z (Z.lor 0xF0 (Z.shiftr r 18)); contByte (Z.shiftr r 12);
        contByte (Z.shiftr r 6); contByte r].

(** *** strings.Map and strings.ToUpper *)

(** [strings.Map]: [for i, c := range s] decodes rune after rune, every
    byte that starts no valid encoding being the rune [RuneError]; the
    mapped rune is written in UTF-8 and dropped when negative.  [skip]
    counts the bytes of the current rune still to pass. *)
Fixpoint MapFrom (mapping : Z -> Z) (skip : nat) (s : bytes) : bytes :=
  match s with
  | [] => []
  | _ :: s' =>
      match skip with
      | S k => MapFrom mapping k s'
      | O =>
          let '(c, width) := DecodeRune s in
          let r := mapping c in
          (if r <? 0 then [] else EncodeRune r) ++ MapFrom mapping (Nat.pred width) s'
      end
  end.

Definition Map (mapping : Z -> Z) (s : bytes) : bytes := MapFrom mapping 0 s.

Definition isASCII (s : bytes) : bool := forallb (fun c => byteZ c <? RuneSelf) s.

Definition isLower (c : ascii) : bool := between 97 122 c.

(** The byte loop of [strings.ToUpper]: [c -= 'a' - 'A'] on a lower-case
    letter. *)
Definition upperByte (c : ascii) : ascii :=
  if isLower c then byte_of_Z (byteZ c - 32) else c.

Section Unicode.

(** [unicode.To(unicode.UpperCase, r)] for a rune past [MaxASCII]: the
    lookup in the table [unicode.CaseRanges]. *)
Variable caseRanges : Z -> Z.

(** [unicode.ToUpper]. *)
Definition unicode_ToUpper (r : Z) : Z :=
  if r <=? 0x7F
  then (if (97 <=? r) && (r <=? 122) then r - 32 else r)
  else caseRanges r.

(** [strings.ToUpper]: a loop over the bytes when all of them are ASCII,
    [Map(unicode.ToUpper, s)] otherwise. *)
Definition ToUpper (s : bytes) : bytes :=
  if isASCII s then map upperByte s else Map unicode_ToUpper s.

End Unicode.

(** *** net.SplitHostPort and strconv.Atoi *)

Definition error := option string.
Definition nil : error := None.

(** [net.SplitHostPort]: [host:port], ["[host]:port"]; [None] is the
    [*AddrError]. *)
Definition SplitHostPort (hostport : bytes) : option (bytes * bytes) :=
  let i := LastIndexByte hostport ":"%char in
  if i <? 0 then None (* missing port in address *)
  else
    let n := len hostport in
    let bracketed :=
      if headIs (Ascii.eqb "["%char) hostport then
        let end_ := IndexByte hostport "]"%char in
        if end_ <? 0 then None (* missing ']' in address *)
        else if end_ + 1 =? n then None (* missing port in address *)
        else if end_ + 1 =? i then Some (slice hostport 1 end_, 1, end_ + 1)
        else None (* too many colons / missing port *)
      else
        let host := slice hostport 0 i in
        if 0 <=? IndexByte host ":"%char then None (* too many colons in address *)
        else Some (host, 0, 0) in
    match bracketed with
    | None => None
    | Some (host, j, k) =>
        if 0 <=? IndexByte (slice hostport j n) "["%char then None
        else if 0 <=? IndexByte (slice hostport k n) "]"%char then None
        else Some (host, slice hostport (i + 1) n)
    end.

Definition isDigit (c : ascii) : bool := between 48 57 c.

Definition digitsValue (s : bytes) : Z :=
  fold_left (fun n c => n * 10 + (byteZ c - 48)) s 0.

Definition maxInt : Z := 2 ^ 63 - 1.
Definition minInt : Z := - 2 ^ 63.

(** [strconv.Atoi] where [int] has 64 bits: an optional sign and decimal
    digits; the value is [0] with a syntax error, and is cut to the range of
    [int] with a range error. *)
Definition Atoi (s : bytes) : Z * error :=
  let '(neg, ds) :=
    match s with
    | c :: t => if Ascii.eqb c "-" then (true, t)
                else if Ascii.eqb c "+" then (false, t) else (false, s)
    | [] => (false, s)
    end in
  match ds with
  | [] => (0, Some "invalid syntax"%string)
  | _ =>
      if forallb isDigit ds then
        let n := if neg then - digitsValue ds else digitsValue ds in
        if maxInt <? n then (maxInt, Some "value out of range"%string)
        else if n <? minInt then (minInt, Some "value out of range"%string)
        else (n, nil)
      else (0, Some "invalid syntax"%string)
  end.

(** *** bufio.Scanner with the default split function *)

Definition dropCR (data : bytes) : bytes :=
  match rev data with
  | c :: r => if Ascii.eqb c CR then rev r else data
  | [] => data
  end.

(** The first token of [bufio.ScanLines] over the whole input: [None] when
    there is no input, else the text before the first newline (or all of it),
    less one trailing carriage return. *)
Definition ScanLines (data : bytes) : option bytes :=
  match data with
  | [] => None
  | _ =>
      let i := IndexByte data LF in
      if 0 <=? i then Some (dropCR (slice data 0 i)) else Some (dropCR data)
  end.

(** *** strings.ToLower *)

Definition isUpper (c : ascii) : bool := between 65 90 c.

(** The byte loop of [strings.ToLower]: [c += 'a' - 'A'] on an upper-case
    letter. *)
Definition lowerByte (c : ascii) : ascii :=
  if isUpper c then byte_of_Z (byteZ c + 32) else c.

Section UnicodeLower.

(** [unicode.To(unicode.LowerCase, r)] for a rune past [MaxASCII]. *)
Variable caseRanges : Z -> Z.

(** [unicode.ToLower]. *)
Definition unicode_ToLower (r : Z) : Z :=
  if r <=? 0x7F
  then (if (65 <=? r) && (r <=? 90) then r + 32 else r)
  else caseRanges r.

(** [strings.ToLower]: a loop over the bytes when all of them are ASCII,
    [Map(unicode.ToLower, s)] otherwise. *)
Definition ToLower (s : bytes) : bytes :=
  if isASCII s then map lowerByte s else Map unicode_ToLower s.

End UnicodeLower.

(** *** strings.TrimSpace *)

(** The table [asciiSpace]: tab, newline, vertical tab, form feed, carriage
    return and space. *)
Definition asciiSpace (c : ascii) : bool :=
  existsb (Z.eqb (byteZ c)) [9; 10; 11; 12; 13; 32].

(** The bytes of [s] from the first one that does not satisfy [f]. *)
Fixpoint dropWhile (f : ascii -> bool) (s : bytes) : bytes :=
  match s with
  | [] => []
  | c :: s' => if f c then dropWhile f s' else s
  end.

Section TrimSpace.

(** [TrimFunc(s, unicode.IsSpace)] and [TrimRightFunc(s, unicode.IsSpace)],
    which [TrimSpace] calls when it meets a byte that is not ASCII. *)
Variable TrimFunc_IsSpace : bytes -> bytes.
Variable TrimRightFunc_IsSpace : bytes -> bytes.

(** [strings.TrimSpace]: the loop from the start stops at the first byte
    that is no ASCII space, the loop from the end likewise; a byte that is not
    ASCII at either place hands over to the Unicode functions. *)
Definition TrimSpace (s : bytes) : bytes :=
  let fromStart := dropWhile asciiSpace s in
  match fromStart with
  | [] => []
  | c :: _ =>
      if RuneSelf <=? byteZ c then TrimFunc_IsSpace fromStart
      else
        let kept := dropWhile asciiSpace (rev fromStart) in
        match kept with
        | [] => []
        | d :: _ =>
            if RuneSelf <=? byteZ d then TrimRightFunc_IsSpace (rev kept)
            else rev kept
        end
  end.

End TrimSpace.

(** *** strconv.FormatUint in base 10 *)

Definition FormatUint (n : Z) : bytes :=
  list_ascii_of_string (NilZero.string_of_uint (N.to_uint (Z.to_N n))).

End Go.


(** ** Fixed-width conversions *)

(** [int64(x)] for [x] of type [uint64]. *)
Definition int64_of_uint64 (x : Z) : Z :=
  let y := x mod 2 ^ 64 in
  if y <? 2 ^ 63 then y else y - 2 ^ 64.

(** [uint16(x)] for [x] of type [int]. *)
Definition uint16_of_int (x : Z) : Z := x mod 2 ^ 16.

(** ** Records read from the ring buffer (generated by bpf2go) *)

(** [bpfConnectionInfoT]. *)
Record BPFConnInfo : Type := mkConn {
  S_addr : bytes;   (* [16]uint8 *)
  D_addr : bytes;   (* [16]uint8 *)
  S_port : Z;       (* uint16 *)
  D_port : Z        (* uint16 *)
}.

Record bpfPid : Type := mkPid {
  HostPid : Z;
  UserPid : Z;
  Ns : Z
}.

Record bpfTp : Type := mkTp {
  TraceId : bytes;
  SpanId : bytes;
  ParentId : bytes;
  Ts : Z;
  TpFlags : Z       (* the field [Flags] of [Tp] *)
}.

(** [BPFHTTPInfo], that is [bpfHttpInfoT]. *)
Record BPFHTTPInfo : Type := mkBPFHTTPInfo {
  Flags : Z;             (* uint64 *)
  ConnInfo : BPFConnInfo;
  StartMonotimeNs : Z;   (* uint64 *)
  EndMonotimeNs : Z;     (* uint64 *)
  Buf : bytes;           (* [160]uint8 *)
  Len : Z;               (* uint32 *)
  RespLen : Z;           (* uint32 *)
  Status : Z;            (* uint16 *)
  Type_ : Z;             (* uint8, the field [Type] *)
  Ssl : Z;               (* uint8 *)
  Pid : bpfPid;
  Tp : bpfTp
}.

(** [TCPRequestInfo], that is [bpfTcpReqT]: the fields the code reads. *)
Record TCPRequestInfo : Type := mkTCPRequestInfo {
  tcp_ConnInfo : BPFConnInfo;
  tcp_StartMonotimeNs : Z;   (* uint64 *)
  tcp_EndMonotimeNs : Z;     (* uint64 *)
  tcp_Buf : bytes;
  tcp_Len : Z;
  tcp_Pid : bpfPid;
  tcp_Tp : bpfTp
}.

(** ** Package svc and package request: what the code writes *)

Module svc.

Inductive InstrumentableType : Type :=
| InstrumentableUnset
| InstrumentableGeneric.

Record ID : Type := mkID { SDKLanguage : InstrumentableType }.

Definition zero : ID := mkID InstrumentableUnset.

End svc.

Module request.

(** Modelled from the spec: the constant [request.EventTypeSQLClient] of
    package [request], which is not among the sources; the spec lists
    SQLClient among the kinds of a span and numbers the event kind
    SQL_CLIENT 5. *)
Definition EventTypeSQLClient : Z := 5.

Record PidInfo : Type := mkPidInfo {
  HostPID : Z;
  UserPID : Z;
  Namespace : Z
}.

Record Span : Type := mkSpan {
  Type_ : Z;
  ID : Z;
  Method : bytes;
  Path : bytes;
  Peer : bytes;
  Host : bytes;
  HostPort : Z;
  ContentLength : Z;
  RequestStart : Z;
  Start : Z;
  End_ : Z;
  Status : Z;
  ServiceID : svc.ID;
  TraceID : bytes;
  SpanID : bytes;
  ParentSpanID : bytes;
  Flags : Z;
  Pid : PidInfo;
  Statement : bytes
}.

(** [request.Span{}]: the trace and span identifiers are arrays of 16 and 8
    zero bytes. *)
Definition zero : Span :=
  mkSpan 0 0 [] [] [] [] 0 0 0 0 0 0 svc.zero
    (repeat NUL 16) (repeat NUL 8) (repeat NUL 8) 0 (mkPidInfo 0 0 0) [].

End request.

(** What the readers return: [(request.Span, bool, error)]. *)
Definition readResult : Type := request.Span * bool * Go.error.

(** ** common.go: cstr *)

Definition cstr (chars : bytes) : bytes :=
  let addrLen := Go.IndexByte chars NUL in
  let addrLen := if addrLen <? 0 then len chars else addrLen in
  slice chars 0 addrLen.

(** ** httpfltr_transform.go *)

Record HTTPInfo : Type := mkHTTPInfo {
  Info : BPFHTTPInfo;     (* the embedded [BPFHTTPInfo] *)
  Method : bytes;
  URL : bytes;
  Host : bytes;
  Peer : bytes;
  Service : svc.ID
}.

Definition removeQuery (url : bytes) : bytes :=
  let idx := Go.IndexByte url QMARK in
  if 0 <? idx then slice url 0 idx else url.

Definition httpInfoToSpan (info : HTTPInfo) : request.Span :=
  {| request.Type_ := Type_ (Info info);
     request.ID := 0;
     request.Method := Method info;
     request.Path := removeQuery (URL info);
     request.Peer := Peer info;
     request.Host := Host info;
     request.HostPort := D_port (ConnInfo (Info info));
     request.ContentLength := Len (Info info);
     request.RequestStart := int64_of_uint64 (StartMonotimeNs (Info info));
     request.Start := int64_of_uint64 (StartMonotimeNs (Info info));
     request.End_ := int64_of_uint64 (EndMonotimeNs (Info info));
     request.Status := Status (Info info);
     request.ServiceID := Service info;
     request.TraceID := TraceId (Tp (Info info));
     request.SpanID := SpanId (Tp (Info info));
     request.ParentSpanID := ParentId (Tp (Info info));
     request.Flags := TpFlags (Tp (Info info));
     request.Pid := {| request.HostPID := HostPid (Pid (Info info));
                       request.UserPID := UserPid (Pid (Info info));
                       request.Namespace := Ns (Pid (Info info)) |};
     request.Statement := [] |}.

Definition url (event : BPFHTTPInfo) : bytes :=
  let buf := Buf event in
  let space := Go.Index buf " "%string in
  if space <? 0 then []
  else
    let bufEnd := Go.IndexByte (Buf event) NUL in
    let bufEnd := if bufEnd <? 0 then len buf else bufEnd in
    if bufEnd <? space + 1 then []
    else
      let nextSpace := Go.IndexAny (slice buf (space + 1) bufEnd) [SP; CR; LF] in
      if nextSpace <? 0 then slice buf (space + 1) bufEnd
      else
        let end_ := nextSpace + space + 1 in
        let end_ := if bufEnd <? end_ then bufEnd else end_ in
        slice buf (space + 1) end_.

Definition method (event : BPFHTTPInfo) : bytes :=
  let buf := Buf event in
  let space := Go.Index buf " "%string in
  if space <? 0 then [] else slice buf 0 space.

Definition hostFromBuf (event : BPFHTTPInfo) : bytes * Z :=
  let buf := cstr (Buf event) in
  let host : bytes := "Host: "%string in
  let idx := Go.Index buf host in
  if idx <? 0 then ([], -1)
  else
    let buf := slice buf (idx + len host) (len buf) in
    let rIdx := Go.Index buf [CR] in
    let rIdx := if rIdx <? 0 then len buf else rIdx in
    match Go.SplitHostPort (slice buf 0 rIdx) with
    | None => ([], -1)
    | Some (host, portStr) => (host, fst (Go.Atoi portStr))
    end.

(** [copy(make(net.IP, net.IPv6len), a[:])]. *)
Definition copyIP (a : bytes) : bytes := firstn 16 (a ++ repeat NUL 16).

Definition with_D_port (c : BPFConnInfo) (p : Z) : BPFConnInfo :=
  {| S_addr := S_addr c; D_addr := D_addr c; S_port := S_port c; D_port := p |}.

Definition with_ConnInfo (e : BPFHTTPInfo) (c : BPFConnInfo) : BPFHTTPInfo :=
  {| Flags := Flags e; ConnInfo := c;
     StartMonotimeNs := StartMonotimeNs e; EndMonotimeNs := EndMonotimeNs e;
     Buf := Buf e; Len := Len e; RespLen := RespLen e; Status := Status e;
     Type_ := Type_ e; Ssl := Ssl e; Pid := Pid e; Tp := Tp e |}.

(** The error [binary.Read] returns on a record shorter than the layout. *)
Definition readError : Go.error := Some "binary.Read"%string.

(** The seven verbs of [isSQL], in the order of its loop. *)
Definition sqlVerbs : list bytes :=
  map list_ascii_of_string
    ["SELECT"; "UPDATE"; "DELETE"; "INSERT"; "ALTER"; "CREATE"; "DROP"]%string.

(** The loop of [isSQL] over the verbs left to try. *)
Fixpoint isSQL_loop (b : bytes) (qs : list bytes) : Z :=
  match qs with
  | [] => -1
  | q :: qs' =>
      let i := Go.Index b q in
      if 0 <=? i then i else isSQL_loop b qs'
  end.

(** ** common.go: kernel capabilities *)

Inductive KernelLockdown : Type :=
| KernelLockdownNone
| KernelLockdownIntegrity
| KernelLockdownConfidentiality
| KernelLockdownOther.

Definition KernelLockdown_eqb (a b : KernelLockdown) : bool :=
  match a, b with
  | KernelLockdownNone, KernelLockdownNone
  | KernelLockdownIntegrity, KernelLockdownIntegrity
  | KernelLockdownConfidentiality, KernelLockdownConfidentiality
  | KernelLockdownOther, KernelLockdownOther => true
  | _, _ => false
  end.

(** What the calls on [lockdownPath] observe. *)
Inductive lockdownFile : Type :=
| StatFails                   (* [os.Stat] returns an error: no such file *)
| OpenFails                   (* [os.Stat] succeeds, [os.Open] fails *)
| ReadFails                   (* the file opens, the scanner's read fails *)
| Holds (content : bytes).    (* the file opens and has this content *)

(** The state the capability probe reads. *)
Record kernel : Type := mkKernel {
  KernelVersion : Z * Z;              (* [KernelVersion()]: major, minor *)
  lockdownPath : lockdownFile;
  IntegrityModeOverride : bool        (* the package variable *)
}.

Definition KernelLockdownMode (k : kernel) : KernelLockdown :=
  match lockdownPath k with
  | StatFails => KernelLockdownNone
  | OpenFails => KernelLockdownIntegrity
  | ReadFails => KernelLockdownIntegrity
  | Holds content =>
      match Go.ScanLines content with
      | Some lockdown =>
          if Go.Contains lockdown "[none]"%string then KernelLockdownNone
          else if Go.Contains lockdown "[integrity]"%string then KernelLockdownIntegrity
          else if Go.Contains lockdown "[confidentiality]"%string
               then KernelLockdownConfidentiality
          else KernelLockdownOther
      | None => KernelLockdownIntegrity
      end
  end.

Definition SupportsContextPropagation (k : kernel) : bool :=
  let '(kernelMajor, kernelMinor) := KernelVersion k in
  if (kernelMajor <? 5) || ((kernelMajor =? 5) && (kernelMinor <? 10)) then true
  else
    let lockdown := KernelLockdownMode k in
    if KernelLockdown_eqb lockdown KernelLockdownNone then true
    else false.

Definition SupportsEBPFLoops (k : kernel) : bool :=
  let '(kernelMajor, kernelMinor) := KernelVersion k in
  (5 <? kernelMajor) || ((kernelMajor =? 5) && (17 <=? kernelMinor)).

(** ** Definitions that follow the words of the specification *)

(** The longest prefix of [s] none of whose bytes satisfies [stop]: the text
    up to the next such byte, or to the end. *)
Fixpoint upTo (stop : ascii -> bool) (s : bytes) : bytes :=
  match s with
  | [] => []
  | a :: s' => if stop a then [] else a :: upTo stop s'
  end.

Definition isSpace : ascii -> bool := Ascii.eqb SP.
Definition isNUL : ascii -> bool := Ascii.eqb NUL.
Definition isCR : ascii -> bool := Ascii.eqb CR.
Definition isQuery : ascii -> bool := Ascii.eqb QMARK.

(** Space, carriage return or newline. *)
Definition isWhitespace (c : ascii) : bool := existsb (Ascii.eqb c) [SP; CR; LF].

(** A byte that ends the path: whitespace or the zero terminator. *)
Definition endsPath (c : ascii) : bool := isWhitespace c || isNUL c.

(** The text after the first byte that satisfies [f], when there is one. *)
Fixpoint afterFirst (f : ascii -> bool) (s : bytes) : option bytes :=
  match s with
  | [] => None
  | a :: s' => if f a then Some s' else afterFirst f s'
  end.

(** The URL of the request line, in the words of the specification: the text
    between the first space and the next whitespace, cut at the zero
    terminator; nothing when the zero terminator comes before that space. *)
Definition spec_url (buf : bytes) : bytes :=
  match afterFirst isSpace buf with
  | None => []
  | Some rest =>
      if existsb isNUL (upTo isSpace buf) then [] else upTo endsPath rest
  end.

(** Query removal in the words of the specification: everything from the
    first ['?'] onward is stripped. *)
Definition spec_removeQuery (u : bytes) : bytes := upTo isQuery u.

(** The value of the [Host: ] header, in the words of the specification:
    the text after the first ["Host: "] of the zero-terminated buffer, up to
    the next carriage return or the end. *)
Definition hostHeaderValue (buf : bytes) : option bytes :=
  let b := upTo isNUL buf in
  let idx := Go.Index b "Host: "%string in
  if idx <? 0 then None
  else Some (upTo isCR (skipn (Z.to_nat (idx + 6)) b)).


(** An ASCII control character: a byte in [0x00-0x1F], or [0x7F]. *)
Definition isControl (c : ascii) : bool :=
  (byteZ c <=? 0x1F) || (byteZ c =? 0x7F).

(** The earliest occurrence of any of the verbs in [b]: the least of their
    indexes, [-1] when none occurs. *)
Fixpoint earliestOf (b : bytes) (qs : list bytes) : Z :=
  match qs with
  | [] => -1
  | q :: qs' =>
      let i := Go.Index b q in
      let j := earliestOf b qs' in
      if i <? 0 then j else if j <? 0 then i else Z.min i j
  end.

(** Context propagation in the words of the specification: supported on a
    kernel before 5.10, and on a later one when the lockdown mode is None and
    the override flag is not set. *)
Definition spec_context_propagation (k : kernel) : bool :=
  let '(major, minor) := KernelVersion k in
  let before_5_10 := (major <? 5) || ((major =? 5) && (minor <? 10)) in
  before_5_10 ||
  (KernelLockdown_eqb (KernelLockdownMode k) KernelLockdownNone
   && negb (IntegrityModeOverride k)).


(** A kernel 5.15 whose lockdown file names [none], started with the
    override flag set. *)
Definition overriddenKernel : kernel :=
  mkKernel (5, 15) (Holds "[none] integrity confidentiality"%string) true.

(** Scenario 6 of the specification. *)
Definition integrityKernel : kernel :=
  mkKernel (5, 15) (Holds "none [integrity] confidentiality"%string) false.

(** ** What commName observes of the file system *)

(** The result of [os.Stat] as [commName] tells it apart. *)
Inductive statResult : Type :=
| StatOK
| StatNotExist               (* an error for which [os.IsNotExist] holds *)
| StatOtherError.

(** ** Package transform: the Kubernetes decorator *)

Fixpoint bytes_eqb (a b : bytes) : bool :=
  match a, b with
  | [], [] => true
  | x :: a', y :: b' => Ascii.eqb x y && bytes_eqb a' b'
  | _, _ => false
  end.

Module kube.

(** [kube.Owner]: the chain [owner.Owner], from the pod's owner upwards, is
    the list of the owners; [T] is the type of the field [Type]. *)
Record Owner (T : Type) : Type := mkOwner {
  OwnerType : T;
  OwnerName : bytes
}.
Arguments mkOwner {T}.
Arguments OwnerType {T}.
Arguments OwnerName {T}.

(** [kube.PodInfo]: the fields the decorator reads. *)
Record PodInfo (T : Type) : Type := mkPodInfo {
  Name : bytes;
  Namespace : bytes;
  NodeName : bytes;
  UID : bytes;
  StartTimeStr : bytes;
  Owners : list (Owner T)
}.
Arguments mkPodInfo {T}.
Arguments Name {T}.
Arguments Namespace {T}.
Arguments NodeName {T}.
Arguments UID {T}.
Arguments StartTimeStr {T}.
Arguments Owners {T}.

End kube.

Module transform.

Definition EnabledTrue : bytes := "true"%string.
Definition EnabledFalse : bytes := "false"%string.
Definition EnabledAutodetect : bytes := "autodetect"%string.
Definition EnabledDefault : bytes := EnabledFalse.

Record KubernetesDecorator : Type := mkKubernetesDecorator {
  Enable : bytes;
  ClusterName : bytes;
  KubeconfigPath : bytes;
  InformersSyncTimeout : Z;
  DropExternal : bool
}.

(** A Go map from attribute names to strings: the entries, one per key, the
    last one written first; [None] is the nil map. *)
Definition attrs : Type := list (bytes * bytes).

Definition attrs_get (k : bytes) (m : attrs) : option bytes :=
  match find (fun kv => bytes_eqb k (fst kv)) m with
  | Some kv => Some (snd kv)
  | None => None
  end.

(** [m[k] = v]. *)
Definition attrs_set (k v : bytes) (m : attrs) : attrs :=
  (k, v) :: filter (fun kv => negb (bytes_eqb k (fst kv))) m.

(** The fields of [span.ServiceID], a [svc.ID], that the decorator reads and
    writes; it touches nothing else of the span. *)
Record ServiceID : Type := mkServiceID {
  Name : bytes;
  Namespace : bytes;
  UID : bytes;
  AutoName : bool;
  Metadata : option attrs
}.

End transform.

(** A byte that [net.SplitHostPort] gives a meaning to: a colon or a square
    bracket. *)
Definition splitsHostPort (c : ascii) : bool :=
  existsb (Ascii.eqb c) [":"; "["; "]"]%char.

(** An ASCII byte that is no white space of [Go.asciiSpace]. *)
Definition printable (c : ascii) : bool :=
  (byteZ c <? Go.RuneSelf) && negb (Go.asciiSpace c).

(** A byte with which no decimal number begins: no digit and no sign. *)
Definition startsNoNumber (c : ascii) : bool :=
  negb (Go.isDigit c) && negb (Ascii.eqb c "-") && negb (Ascii.eqb c "+").

(** ** Sample records *)

(** A payload in a zero-initialised buffer of [n] bytes. *)
Definition zeroPad (n : nat) (payload : bytes) : bytes :=
  firstn n (payload ++ repeat NUL n).

Definition CRLF : bytes := [CR; LF].

(** Connection information that is not available: both ports are zero. *)
Definition noConn : BPFConnInfo := mkConn (repeat NUL 16) (repeat NUL 16) 0 0.

Definition noTp : bpfTp := mkTp (repeat NUL 16) (repeat NUL 8) (repeat NUL 8) 0 0.

(** An HTTP event as the kprobes emit it, with a buffer of 160 bytes. *)
Definition httpEvent (conn : BPFConnInfo) (start_ns end_ns : Z)
    (payload : bytes) (status : Z) : BPFHTTPInfo :=
  mkBPFHTTPInfo 6 conn start_ns end_ns (zeroPad 160 payload)
    (len payload) 0 status 6 0 (mkPid 4242 1 4026531836) noTp.

(** A record whose start time is after its end time. *)
Definition lateStart : BPFHTTPInfo :=
  httpEvent noConn 20 10 ("GET / HTTP/1.1"%string ++ CRLF) 200.

(** The record [lateStart] as the reader hands it to the span builder. *)
Definition lateStartInfo : HTTPInfo :=
  mkHTTPInfo lateStart "GET"%string "/"%string [] []
    (svc.mkID svc.InstrumentableGeneric).


(** A request line with a tab inside the request target. *)
Definition tabInPath : BPFHTTPInfo :=
  httpEvent noConn 10 20
    ("GET /a"%string ++ [TAB] ++ "b HTTP/1.1"%string ++ CRLF) 200.

(** A buffer whose first space comes after its first zero byte. *)
Definition zeroBeforeSpace : BPFHTTPInfo :=
  httpEvent noConn 10 20 ("GET"%string ++ [NUL] ++ " /x"%string) 200.

(** Scenario 1 of the specification: a GET with a query, no connection
    information. *)
Definition getWithQuery : BPFHTTPInfo :=
  httpEvent noConn 10 20
    ("GET /api/v1/users?active=true HTTP/1.1"%string ++ CRLF
       ++ "Host: svc:8080"%string ++ CRLF ++ CRLF) 200.

(** The 16 bytes of the IPv4-mapped address [a.b.c.d]. *)
Definition ipv4 (a b c d : Z) : bytes :=
  repeat NUL 10 ++ map byte_of_Z [255; 255; a; b; c; d].

(** Scenario 2 of the specification: a POST from 10.0.0.1 to 10.0.0.2:443. *)
Definition postWithConn : BPFHTTPInfo :=
  httpEvent (mkConn (ipv4 10 0 0 1) (ipv4 10 0 0 2) 51234 443) 10 20
    ("POST /x HTTP/1.1"%string ++ CRLF) 201.

(** The prefix of a TCP record's buffer that is classified: [buf[:len]],
    with [len] cut to the capacity of the buffer. *)
Definition clampedPrefix (event : TCPRequestInfo) : bytes :=
  let cap := len (tcp_Buf event) in
  let l := tcp_Len event in
  firstn (Z.to_nat (if (l <? 0) || (cap <? l) then cap else l)) (tcp_Buf event).

(** A TCP event with a buffer of 256 bytes. *)
Definition tcpEvent (payload : bytes) : TCPRequestInfo :=
  mkTCPRequestInfo noConn 10 20 (zeroPad 256 payload) (len payload)
    (mkPid 4242 1 4026531836) noTp.

(** A statement that drops a table and then selects. *)
Definition dropThenSelect : bytes := "drop table a; select 1"%string.

(** Four bytes that are no UTF-8, as a binary frame header has them, and
    then a statement. *)
Definition invalidUTF8ThenDrop : bytes :=
  map byte_of_Z [255; 255; 255; 255] ++ "DROP"%string.

(** A verb inside a longer word, and a payload without any verb (scenario 4
    of the specification). *)
Definition verbInsideWord : bytes := "misdelete"%string.
Definition binaryJunk : bytes := "BINARYJUNK"%string.

(** Scenario 3 of the specification: a statement after three bytes of
    framing. *)
Definition noisySelect : bytes :=
  map byte_of_Z [0; 0; 16] ++ "SELECT id FROM users WHERE x=1"%string.

(** Instances of the parameters of the readers, at which the theorems are
    applied to the sample records: a decoder that finds [event] in every
    record, a case table with no entry, addresses printed as their bytes, and
    a statement parser that names nothing. *)
Definition decodesTo {A : Type} (event : A) : bytes -> option A :=
  fun _ => Some event.
Definition noCaseRanges : Z -> Z := fun r => r.
Definition rawAddress : bytes -> bytes := fun a => a.
Definition namesNothing : bytes -> bytes * bytes := fun _ => ([], []).

(** A process table with one process, 4242, whose comm file holds
    ["nginx"] and a newline. *)
Definition oneProcessStat (path : bytes) : statResult :=
  if bytes_eqb path "/proc/4242/comm"%string then StatOK else StatNotExist.
Definition oneProcessRead (path : bytes) : option bytes :=
  if bytes_eqb path "/proc/4242/comm"%string
  then Some (list_ascii_of_string "nginx" ++ [LF])
  else None.

(** Trimming of text that is not ASCII, left out of the samples. *)
Definition noUnicodeTrim : bytes -> bytes := fun s => s.

(** A pod of a replica set that a deployment owns, with labels named after
    the kind of the owner. *)
Definition kindLabel (kind : bytes) : bytes :=
  list_ascii_of_string "k8s." ++ kind ++ list_ascii_of_string ".name".

Definition samplePod : kube.PodInfo bytes :=
  kube.mkPodInfo "web-5d4f-x2x"%string "shop"%string "node-1"%string
    "uid-1"%string "2024-01-01"%string
    [ kube.mkOwner (list_ascii_of_string "replicaset") (list_ascii_of_string "web-5d4f");
      kube.mkOwner (list_ascii_of_string "deployment") (list_ascii_of_string "web") ].

Definition samplePodName (info : kube.PodInfo bytes) : bytes :=
  match rev (kube.Owners info) with
  | o :: _ => kube.OwnerName o
  | [] => kube.Name info
  end.

Definition autoNamedService : transform.ServiceID :=
  transform.mkServiceID "java"%string [] [] true None.

(** Requests whose Host header names an IPv6 address, and a port by a
    word. *)
Definition bracketedHost : BPFHTTPInfo :=
  httpEvent noConn 10 20
    ("GET / HTTP/1.1"%string ++ CRLF ++ "Host: [::1]:8080"%string ++ CRLF ++ CRLF) 200.

Definition wordPort : BPFHTTPInfo :=
  httpEvent noConn 10 20
    ("GET / HTTP/1.1"%string ++ CRLF ++ "Host: svc:http"%string ++ CRLF ++ CRLF) 200.

(** A TCP event whose [len] field is negative. *)
Definition negativeLen : TCPRequestInfo :=
  mkTCPRequestInfo noConn 10 20 (zeroPad 256 binaryJunk) (-1)
    (mkPid 4242 1 4026531836) noTp.

(** A kernel 6.1 without lockdown file. *)
Definition recentKernel : kernel := mkKernel (6, 1) StatFails false.

(** A process namespace that no pod owns. *)
Definition noPods : Z -> option (kube.PodInfo bytes) := fun _ => None.
Definition onePod : Z -> option (kube.PodInfo bytes) :=
  fun ns => if ns =? 4026531836 then Some samplePod else None.

(** ** The readers *)

Section Readers.

(** [unicode.CaseRanges], as [Go.ToUpper] looks it up. *)
Variable caseRanges : Z -> Z.

(** [net.IP.String] on the 16 bytes of an address. *)
Variable IP_String : bytes -> bytes.

(** [sqlprune.SQLParseOperationAndTable], of a package that is not among
    the sources. *)
Variable SQLParseOperationAndTable : bytes -> bytes * bytes.

(** [binary.Read] into the generated layouts [bpfHttpInfoT] and
    [bpfTcpReqT]; [None] is its error. *)
Variable binary_Read_BPFHTTPInfo : bytes -> option BPFHTTPInfo.
Variable binary_Read_TCPRequestInfo : bytes -> option TCPRequestInfo.

(** The SQL and the legacy HTTP layouts with their span builders, and the
    HTTP/2 reader: files that are not among the sources. *)
Variable SQLRequestTrace : Type.
Variable binary_Read_SQLRequestTrace : bytes -> option SQLRequestTrace.
Variable SQLRequestTraceToSpan : SQLRequestTrace -> request.Span.
Variable HTTPRequestTrace : Type.
Variable binary_Read_HTTPRequestTrace : bytes -> option HTTPRequestTrace.
Variable HTTPRequestTraceToSpan : HTTPRequestTrace -> request.Span.
Variable ReadHTTP2InfoIntoSpan : bytes -> runtime readResult.

Set Default Proof Using "Type".

Definition hostInfo (event : BPFHTTPInfo) : bytes * bytes :=
  let src := copyIP (S_addr (ConnInfo event)) in
  let dst := copyIP (D_addr (ConnInfo event)) in
  (IP_String src, IP_String dst).

(** The host, peer and port the reader resolves for an event. *)
Definition resolvedHost (event : BPFHTTPInfo) : bytes * bytes * Z :=
  let c := ConnInfo event in
  if negb (S_port c =? 0) || negb (D_port c =? 0)
  then (IP_String (copyIP (D_addr c)), IP_String (copyIP (S_addr c)), D_port c)
  else
    let '(host, port) := hostFromBuf event in
    if 0 <=? port then (host, [], uint16_of_int port) else ([], [], D_port c).

Definition ReadHTTPInfoIntoSpan (record : bytes) : runtime readResult :=
  match binary_Read_BPFHTTPInfo record with
  | None => Returns (request.zero, true, readError)
  | Some event =>
      let result := mkHTTPInfo event [] [] [] [] svc.zero in
      let result :=
        if negb (S_port (ConnInfo event) =? 0) || negb (D_port (ConnInfo event) =? 0)
        then
          let '(source, target) := hostInfo event in
          mkHTTPInfo (Info result) (Method result) (URL result) target source
            (Service result)
        else
          let '(host, port) := hostFromBuf event in
          if 0 <=? port then
            mkHTTPInfo
              (with_ConnInfo (Info result)
                 (with_D_port (ConnInfo (Info result)) (uint16_of_int port)))
              (Method result) (URL result) host (Peer result) (Service result)
          else result in
      let result :=
        mkHTTPInfo (Info result) (Method result) (url event) (Host result)
          (Peer result) (Service result) in
      let result :=
        mkHTTPInfo (Info result) (method event) (URL result) (Host result)
          (Peer result) (Service result) in
      let result :=
        mkHTTPInfo (Info result) (Method result) (URL result) (Host result)
          (Peer result) (svc.mkID svc.InstrumentableGeneric) in
      Returns (httpInfoToSpan result, false, Go.nil)
  end.

Definition isSQL (buf : bytes) : Z :=
  let b := Go.ToUpper caseRanges buf in
  isSQL_loop b sqlVerbs.

Definition reqHostInfo (trace : TCPRequestInfo) : bytes * bytes :=
  let src := copyIP (S_addr (tcp_ConnInfo trace)) in
  let dst := copyIP (D_addr (tcp_ConnInfo trace)) in
  (IP_String src, IP_String dst).

Definition TCPToSQLToSpan (trace : TCPRequestInfo) (s : bytes) : request.Span :=
  let sql := cstr s in
  let '(method, path) := SQLParseOperationAndTable sql in
  let '(peer, hostname, hostPort) :=
    if negb (S_port (tcp_ConnInfo trace) =? 0) || negb (D_port (tcp_ConnInfo trace) =? 0)
    then let '(p, h) := reqHostInfo trace in (p, h, D_port (tcp_ConnInfo trace))
    else ([], [], 0) in
  {| request.Type_ := request.EventTypeSQLClient;
     request.ID := 0;
     request.Method := method;
     request.Path := path;
     request.Peer := peer;
     request.Host := hostname;
     request.HostPort := hostPort;
     request.ContentLength := 0;
     request.RequestStart := int64_of_uint64 (tcp_StartMonotimeNs trace);
     request.Start := int64_of_uint64 (tcp_StartMonotimeNs trace);
     request.End_ := int64_of_uint64 (tcp_EndMonotimeNs trace);
     request.Status := 0;
     request.ServiceID := svc.zero;
     request.TraceID := TraceId (tcp_Tp trace);
     request.SpanID := SpanId (tcp_Tp trace);
     request.ParentSpanID := ParentId (tcp_Tp trace);
     request.Flags := TpFlags (tcp_Tp trace);
     request.Pid := {| request.HostPID := HostPid (tcp_Pid trace);
                       request.UserPID := UserPid (tcp_Pid trace);
                       request.Namespace := Ns (tcp_Pid trace) |};
     request.Statement := sql |}.

Definition ReadTCPRequestIntoSpan (record : bytes) : runtime readResult :=
  match binary_Read_TCPRequestInfo record with
  | None => Returns (request.zero, true, readError)
  | Some event =>
      let b := tcp_Buf event in
      let l := tcp_Len event in
      let l := if (l <? 0) || (len b <? l) then len b else l in
      let buf := slice (tcp_Buf event) 0 l in
      let sqlIndex := isSQL buf in
      if 0 <=? sqlIndex then
        (* buf[sqlIndex:] *)
        if slice_ok buf sqlIndex (len buf)
        then Returns (TCPToSQLToSpan event (slice buf sqlIndex (len buf)), false, Go.nil)
        else Panics
      else Returns (request.zero, true, Go.nil)
  end.




(** ** httpfltr_transform.go: commName *)

(** [os.Stat] and [os.ReadFile] on a path; [None] is the read error. *)
Variable os_Stat : bytes -> statResult.
Variable os_ReadFile : bytes -> option bytes.

(** [unicode.IsSpace] trimming, as [Go.TrimSpace] hands over to it. *)
Variable TrimFunc_IsSpace : bytes -> bytes.
Variable TrimRightFunc_IsSpace : bytes -> bytes.

(** [filepath.Join("/proc", strconv.FormatUint(uint64(pid), 10), "comm")]:
    the three elements joined by slashes, a path that [filepath.Clean] leaves
    as it is. *)
Definition procPath (pid : Z) : bytes :=
  list_ascii_of_string "/proc" ++ list_ascii_of_string "/" ++ Go.FormatUint pid
    ++ list_ascii_of_string "/" ++ list_ascii_of_string "comm".

Definition commName (pid : Z) : bytes :=
  match os_Stat (procPath pid) with
  | StatNotExist => []
  | _ =>
      match os_ReadFile (procPath pid) with
      | None => []
      | Some name => Go.TrimSpace TrimFunc_IsSpace TrimRightFunc_IsSpace name
      end
  end.

(** ** The Kubernetes decorator *)

(** [unicode.CaseRanges] for lower case, as [Go.ToLower] looks it up. *)
Variable lowerRanges : Z -> Z.

(** [kube.LoadConfig(path)]: whether it returns without error. *)
Variable kube_LoadConfig : bytes -> bool.

(** The type of [Owner.Type] and its method [LabelName], the method
    [PodInfo.ServiceName], and the attribute names of package [attr]. *)
Variable OwnerType : Type.
Variable LabelName : OwnerType -> bytes.
Variable ServiceName : kube.PodInfo OwnerType -> bytes.
Variable K8sNamespaceName : bytes.
Variable K8sPodName : bytes.
Variable K8sNodeName : bytes.
Variable K8sPodUID : bytes.
Variable K8sPodStartTime : bytes.

(** The database: [md.db.OwnerPodInfo]. *)
Variable OwnerPodInfo : Z -> option (kube.PodInfo OwnerType).

Definition Enabled (d : transform.KubernetesDecorator) : bool :=
  let v := Go.ToLower lowerRanges (transform.Enable d) in
  if bytes_eqb v transform.EnabledTrue then true
  else if bytes_eqb v transform.EnabledFalse || bytes_eqb v [] then false
  else if bytes_eqb v transform.EnabledAutodetect
       then (if kube_LoadConfig (transform.KubeconfigPath d) then true else false)
  else false.

(** The loop [for owner != nil] of [appendMetadata] over the chain of
    owners. *)
Fixpoint setOwners (owners : list (kube.Owner OwnerType)) (m : transform.attrs)
    : transform.attrs :=
  match owners with
  | [] => m
  | owner :: up =>
      setOwners up
        (transform.attrs_set (LabelName (kube.OwnerType owner)) (kube.OwnerName owner) m)
  end.

Definition appendMetadata (id : transform.ServiceID) (info : kube.PodInfo OwnerType)
    : transform.ServiceID :=
  let name := if transform.AutoName id then ServiceName info else transform.Name id in
  let namespace :=
    if bytes_eqb (transform.Namespace id) [] then kube.Namespace info
    else transform.Namespace id in
  let metadata : transform.attrs :=
    [ (K8sNamespaceName, kube.Namespace info);
      (K8sPodName, kube.Name info);
      (K8sNodeName, kube.NodeName info);
      (K8sPodUID, kube.UID info);
      (K8sPodStartTime, kube.StartTimeStr info) ] in
  {| transform.Name := name;
     transform.Namespace := namespace;
     transform.UID := kube.UID info;
     transform.AutoName := transform.AutoName id;
     transform.Metadata := Some (setOwners (kube.Owners info) metadata) |}.

(** [metadataDecorator.do] on a span whose [Pid.Namespace] is
    [pidNamespace] and whose [ServiceID] is [id]. *)
Definition do (pidNamespace : Z) (id : transform.ServiceID) : transform.ServiceID :=
  match OwnerPodInfo pidNamespace with
  | Some podInfo => appendMetadata id podInfo
  | None =>
      {| transform.Name := transform.Name id;
         transform.Namespace := transform.Namespace id;
         transform.UID := transform.UID id;
         transform.AutoName := transform.AutoName id;
         transform.Metadata := Some [] |}
  end.

(** ** Facts about the index functions *)

Lemma indexWhere_lower (p : bytes -> bool) (s : bytes) : -1 <= Go.indexWhere p s.
Proof.
  induction s as [|a s IH]; simpl.
  - destruct (p []); lia.
  - destruct (p (a :: s)); [lia|].
    destruct (Go.indexWhere p s <? 0) eqn:E; [lia|].
    apply Z.ltb_ge in E. lia.
Qed.

Lemma indexWhere_upper (p : bytes -> bool) (s : bytes) : Go.indexWhere p s <= len s.
Proof.
  unfold len.
  induction s as [|a s IH]; simpl List.length.
  - simpl. destruct (p []); simpl; lia.
  - cbn [Go.indexWhere]. destruct (p (a :: s)); [lia|].
    destruct (Go.indexWhere p s <? 0) eqn:E; lia.
Qed.

(** At the index found, the suffix satisfies the predicate. *)
Lemma indexWhere_found (p : bytes -> bool) (s : bytes) (i : Z) :
  Go.indexWhere p s = i -> 0 <= i -> p (skipn (Z.to_nat i) s) = true.
Proof.
  revert i. induction s as [|a s IH]; intros i Hi Hpos.
  - simpl in Hi. destruct (p []) eqn:E.
    + subst i. simpl. exact E.
    + lia.
  - cbn [Go.indexWhere] in Hi. destruct (p (a :: s)) eqn:E.
    + subst i. simpl. exact E.
    + destruct (Go.indexWhere p s <? 0) eqn:E2; [lia|].
      apply Z.ltb_ge in E2.
      replace (Z.to_nat i) with (S (Z.to_nat (Go.indexWhere p s))) by lia.
      simpl. apply IH; [reflexivity | lia].
Qed.

(** No earlier suffix satisfies it. *)
Lemma indexWhere_least (p : bytes -> bool) (s : bytes) (j : nat) :
  Z.of_nat j < Go.indexWhere p s -> p (skipn j s) = false.
Proof.
  revert j. induction s as [|a s IH]; intros j Hj.
  - simpl in Hj. destruct (p []) eqn:E; lia.
  - cbn [Go.indexWhere] in Hj. destruct (p (a :: s)) eqn:E; [lia|].
    destruct (Go.indexWhere p s <? 0) eqn:E2; [lia|].
    destruct j as [|j]; [exact E|].
    simpl. apply IH. lia.
Qed.



Lemma indexWhere_ext (p q : bytes -> bool) (s : bytes) :
  (forall t, p t = q t) -> Go.indexWhere p s = Go.indexWhere q s.
Proof.
  intros E. induction s as [|a s IH]; simpl; rewrite E; [reflexivity|].
  rewrite IH. reflexivity.
Qed.

(** ** The text up to the next stop byte *)

Lemma upTo_clean (f : ascii -> bool) (s : bytes) (c : ascii) :
  In c (upTo f s) -> f c = false.
Proof.
  induction s as [|a s IH]; simpl; [intros []|].
  destruct (f a) eqn:E; simpl; [intros []|].
  intros [->|H]; [exact E | exact (IH H)].
Qed.

Lemma upTo_prefix (f : ascii -> bool) (s : bytes) :
  firstn (List.length (upTo f s)) s = upTo f s.
Proof.
  induction s as [|a s IH]; simpl; [reflexivity|].
  destruct (f a); simpl; [reflexivity|]. now rewrite IH.
Qed.

Lemma upTo_all (f : ascii -> bool) (s : bytes) :
  existsb f s = false -> upTo f s = s.
Proof.
  induction s as [|a s IH]; simpl; [reflexivity|].
  destruct (f a); simpl; [discriminate|]. intros H. now rewrite IH.
Qed.

Lemma upTo_app (f : ascii -> bool) (m r : bytes) :
  existsb f m = false -> upTo f (m ++ r) = m ++ upTo f r.
Proof.
  induction m as [|a m IH]; simpl; [reflexivity|].
  destruct (f a); simpl; [discriminate|]. intros H. now rewrite IH.
Qed.

Lemma upTo_upTo (f g : ascii -> bool) (s : bytes) :
  upTo f (upTo g s) = upTo (fun c => f c || g c) s.
Proof.
  induction s as [|a s IH]; simpl; [reflexivity|].
  destruct (g a); simpl.
  - now rewrite orb_true_r.
  - rewrite orb_false_r. destruct (f a); [reflexivity|]. now rewrite IH.
Qed.

Lemma upTo_ext (f g : ascii -> bool) (s : bytes) :
  (forall c, f c = g c) -> upTo f s = upTo g s.
Proof.
  intros E. induction s as [|a s IH]; simpl; [reflexivity|].
  rewrite E, IH. reflexivity.
Qed.

Lemma upTo_existsb (f : ascii -> bool) (s : bytes) :
  existsb f (upTo f s) = false.
Proof.
  induction s as [|a s IH]; simpl; [reflexivity|].
  destruct (f a) eqn:E; simpl; [reflexivity|]. now rewrite E.
Qed.

(** The buffer is the text up to the first stop byte, that byte, and what
    [afterFirst] returns. *)
Lemma afterFirst_split (f : ascii -> bool) (s rest : bytes) :
  afterFirst f s = Some rest ->
  exists a, f a = true /\ s = upTo f s ++ a :: rest.
Proof.
  induction s as [|a s IH]; simpl; [discriminate|].
  destruct (f a) eqn:E.
  - intros [= <-]. exists a. split; [exact E | reflexivity].
  - intros H. destruct (IH H) as [b [Hb Hs]]. exists b. split; [exact Hb|].
    simpl. now rewrite <- Hs.
Qed.

Lemma afterFirst_none (f : ascii -> bool) (s : bytes) :
  afterFirst f s = None <-> existsb f s = false.
Proof.
  induction s as [|a s IH]; simpl; [split; reflexivity|].
  destruct (f a); simpl; [split; discriminate | exact IH].
Qed.

(** The index of the first byte that satisfies [f] is the length of the text
    before it. *)
Lemma indexWhere_headIs (f : ascii -> bool) (s : bytes) :
  Go.indexWhere (Go.headIs f) s = if existsb f s then len (upTo f s) else -1.
Proof.
  unfold len. induction s as [|a s IH]; [reflexivity|].
  cbn [Go.indexWhere Go.headIs existsb upTo].
  destruct (f a) eqn:E; simpl orb; cbv iota; [reflexivity|].
  rewrite IH. destruct (existsb f s).
  - destruct (Z.of_nat (List.length (upTo f s)) <? 0) eqn:L; [lia|].
    simpl List.length. lia.
  - reflexivity.
Qed.

(** ** Slices *)

Lemma slice_from_0 (s : bytes) (hi : Z) : slice s 0 hi = firstn (Z.to_nat hi) s.
Proof. unfold slice. rewrite Z.sub_0_r. reflexivity. Qed.

Lemma slice_to_end (s : bytes) (lo : Z) :
  slice s lo (len s) = skipn (Z.to_nat lo) s.
Proof.
  unfold slice, len. apply firstn_all2. rewrite length_skipn. lia.
Qed.

Lemma slice_upTo (f : ascii -> bool) (s : bytes) :
  slice s 0 (len (upTo f s)) = upTo f s.
Proof.
  rewrite slice_from_0. unfold len. rewrite Nat2Z.id. apply upTo_prefix.
Qed.

(** A slice that starts after a prefix [m] and one more byte. *)
Lemma slice_after (m : bytes) (a : ascii) (rest : bytes) (hi : Z) :
  slice (m ++ a :: rest) (len m + 1) hi = firstn (Z.to_nat (hi - (len m + 1))) rest.
Proof.
  unfold slice, len. f_equal.
  replace (Z.to_nat (Z.of_nat (List.length m) + 1)) with (List.length m + 1)%nat by lia.
  rewrite skipn_app. rewrite skipn_all2 by lia.
  replace (List.length m + 1 - List.length m)%nat with 1%nat by lia. reflexivity.
Qed.

Lemma len_app (a b : bytes) : len (a ++ b) = len a + len b.
Proof. unfold len. rewrite length_app. lia. Qed.

Lemma len_nonneg (s : bytes) : 0 <= len s.
Proof. unfold len. lia. Qed.

(** ** The index functions as text up to a byte *)

Lemma IndexByte_upTo (s : bytes) (c : ascii) :
  Go.IndexByte s c =
  if existsb (Ascii.eqb c) s then len (upTo (Ascii.eqb c) s) else -1.
Proof. apply indexWhere_headIs. Qed.

Lemma IndexAny_upTo (s chars : bytes) :
  Go.IndexAny s chars =
  let f := fun a => existsb (Ascii.eqb a) chars in
  if existsb f s then len (upTo f s) else -1.
Proof. apply indexWhere_headIs. Qed.

(** [strings.Index] with a separator of one byte is [IndexByte]. *)
Lemma Index_single (s : bytes) (c : ascii) : Go.Index s [c] = Go.IndexByte s c.
Proof.
  apply indexWhere_ext. intros [|b t]; simpl; [reflexivity|].
  destruct t; apply andb_true_r.
Qed.

(** [cstr] is the text up to the zero terminator. *)
Lemma cstr_upTo (chars : bytes) : cstr chars = upTo isNUL chars.
Proof.
  unfold cstr. rewrite IndexByte_upTo. fold isNUL.
  destruct (existsb isNUL chars) eqn:E.
  - pose proof (len_nonneg (upTo isNUL chars)) as P.
    destruct (len (upTo isNUL chars) <? 0) eqn:L; [lia|]. apply slice_upTo.
  - simpl. rewrite slice_to_end. simpl. symmetry. now apply upTo_all.
Qed.

(** ** removeQuery *)

(** What [removeQuery] computes: a URL that begins with ['?'] is returned as
    it is; of any other URL, the text up to the first ['?']. *)
Lemma removeQuery_upTo (u : bytes) :
  removeQuery u = if Go.headIs isQuery u then u else upTo isQuery u.
Proof.
  unfold removeQuery. rewrite IndexByte_upTo. fold isQuery.
  destruct u as [|a u]; [reflexivity|].
  cbn [Go.headIs existsb upTo]. destruct (isQuery a) eqn:E; [reflexivity|].
  cbn [orb]. destruct (existsb isQuery u) eqn:X.
  - replace (len (a :: upTo isQuery u)) with (len (upTo isQuery u) + 1)
      by (unfold len; simpl List.length; lia).
    pose proof (len_nonneg (upTo isQuery u)) as P.
    destruct (0 <? len (upTo isQuery u) + 1) eqn:L; [|lia].
    replace (len (upTo isQuery u) + 1) with (len (upTo isQuery (a :: u)))
      by (simpl; rewrite E; unfold len; simpl List.length; lia).
    rewrite slice_upTo. simpl. now rewrite E.
  - simpl. now rewrite upTo_all.
Qed.

(** The path that comes out of [removeQuery] holds no byte that its
    argument does not hold. *)
Lemma removeQuery_incl (u : bytes) (c : ascii) :
  In c (removeQuery u) -> In c u.
Proof.
  rewrite removeQuery_upTo. destruct (Go.headIs isQuery u); [exact (fun H => H)|].
  rewrite <- (upTo_prefix isQuery u). intros H.
  rewrite <- (firstn_skipn (List.length (upTo isQuery u)) u) at 1.
  apply in_or_app. now left.
Qed.

(** C9. [removeQuery] is idempotent: removing the query of a URL whose
    query was removed changes nothing. *)
Theorem removeQuery_idempotent (u : bytes) :
  removeQuery (removeQuery u) = removeQuery u.
Proof.
  rewrite (removeQuery_upTo u).
  destruct (Go.headIs isQuery u) eqn:H.
  - rewrite removeQuery_upTo, H. reflexivity.
  - rewrite removeQuery_upTo.
    assert (C : Go.headIs isQuery (upTo isQuery u) = false).
    { destruct u as [|a u]; [reflexivity|]. simpl in *. rewrite H. simpl. exact H. }
    rewrite C. apply upTo_all, upTo_existsb.
Qed.

Lemma upTo_app_hit (f : ascii -> bool) (m r : bytes) :
  existsb f m = true -> upTo f (m ++ r) = upTo f m.
Proof.
  induction m as [|a m IH]; simpl; [discriminate|].
  destruct (f a); simpl; [reflexivity|]. intros H. now rewrite IH.
Qed.

Lemma upTo_length_le (f : ascii -> bool) (s : bytes) :
  (List.length (upTo f s) <= List.length s)%nat.
Proof.
  induction s as [|a s IH]; simpl; [lia|]. destruct (f a); simpl; lia.
Qed.

Lemma upTo_length_lt (f : ascii -> bool) (s : bytes) :
  existsb f s = true -> (List.length (upTo f s) < List.length s)%nat.
Proof.
  induction s as [|a s IH]; simpl; [discriminate|].
  destruct (f a); simpl; [lia|]. intros H. specialize (IH H). lia.
Qed.

(** ** The request line: method and URL *)

(** [method] is the text before the first space, and empty when the buffer
    has no space. *)
Lemma method_upTo (event : BPFHTTPInfo) :
  method event =
  if existsb isSpace (Buf event) then upTo isSpace (Buf event) else [].
Proof.
  unfold method.
  change (list_ascii_of_string " ") with [SP].
  rewrite Index_single, IndexByte_upTo. fold isSpace.
  destruct (existsb isSpace (Buf event)); [|reflexivity].
  pose proof (len_nonneg (upTo isSpace (Buf event))) as P.
  destruct (len (upTo isSpace (Buf event)) <? 0) eqn:L; [lia|].
  apply slice_upTo.
Qed.

(** [url] computes the URL of the specification's words. *)
Lemma url_spec (event : BPFHTTPInfo) : url event = spec_url (Buf event).
Proof.
  unfold url, spec_url.
  change (list_ascii_of_string " ") with [SP].
  rewrite Index_single, IndexByte_upTo. fold isSpace.
  destruct (afterFirst isSpace (Buf event)) as [rest|] eqn:A.
  - destruct (afterFirst_split _ _ _ A) as [a [Ha Hs]].
    assert (X : existsb isSpace (Buf event) = true).
    { destruct (existsb isSpace (Buf event)) eqn:X; [reflexivity|].
      apply afterFirst_none in X. congruence. }
    rewrite X.
    set (m := upTo isSpace (Buf event)) in *.
    pose proof (len_nonneg m) as Pm.
    destruct (len m <? 0) eqn:L; [lia|]. clear L.
    assert (Na : isNUL a = false).
    { unfold isSpace in Ha. apply Ascii.eqb_eq in Ha. subst a. reflexivity. }
    rewrite IndexByte_upTo. fold isNUL.
    destruct (existsb isNUL m) eqn:Nm.
    + (* the zero terminator comes before the first space *)
      assert (E : existsb isNUL (Buf event) = true).
      { rewrite Hs, existsb_app, Nm. reflexivity. }
      rewrite E.
      assert (U : upTo isNUL (Buf event) = upTo isNUL m).
      { rewrite Hs at 1. now apply upTo_app_hit. }
      rewrite U.
      pose proof (upTo_length_lt isNUL m Nm) as Lt.
      pose proof (len_nonneg (upTo isNUL m)) as P.
      destruct (len (upTo isNUL m) <? 0) eqn:L; [lia|].
      unfold len in *.
      destruct (Z.of_nat (List.length (upTo isNUL m)) <? Z.of_nat (List.length m) + 1) eqn:L2;
        [reflexivity | lia].
    + set (r1 := upTo isNUL rest).
      assert (U : upTo isNUL (Buf event) = m ++ a :: r1).
      { rewrite Hs at 1. rewrite upTo_app by exact Nm. simpl. now rewrite Na. }
      assert (B : (if (if existsb isNUL (Buf event)
                       then len (upTo isNUL (Buf event)) else -1) <? 0
                   then len (Buf event)
                   else if existsb isNUL (Buf event)
                        then len (upTo isNUL (Buf event)) else -1)
                  = len m + 1 + len r1).
      { destruct (existsb isNUL (Buf event)) eqn:E.
        - rewrite U. pose proof (len_nonneg (m ++ a :: r1)) as P.
          destruct (len (m ++ a :: r1) <? 0) eqn:L; [lia|].
          rewrite len_app. unfold len. simpl List.length. lia.
        - simpl. rewrite Hs in E. rewrite existsb_app in E. simpl in E.
          rewrite Nm, Na in E. simpl in E.
          unfold r1. rewrite (upTo_all _ _ E).
          rewrite Hs at 1. rewrite len_app. unfold len. simpl List.length. lia. }
      rewrite B.
      pose proof (len_nonneg r1) as Pr.
      destruct (len m + 1 + len r1 <? len m + 1) eqn:L; [lia|]. clear L.
      assert (S1 : slice (Buf event) (len m + 1) (len m + 1 + len r1) = r1).
      { rewrite Hs at 1. rewrite slice_after.
        replace (len m + 1 + len r1 - (len m + 1)) with (len r1) by lia.
        unfold len. rewrite Nat2Z.id. apply upTo_prefix. }
      rewrite S1, IndexAny_upTo. cbv zeta. fold isWhitespace.
      assert (R : upTo isWhitespace r1 = upTo endsPath rest).
      { unfold r1. apply upTo_upTo. }
      destruct (existsb isWhitespace r1) eqn:W.
      * pose proof (len_nonneg (upTo isWhitespace r1)) as Pw.
        destruct (len (upTo isWhitespace r1) <? 0) eqn:L; [lia|]. clear L.
        pose proof (upTo_length_le isWhitespace r1) as Le.
        destruct (len m + 1 + len r1 <? len (upTo isWhitespace r1) + len m + 1) eqn:L;
          [unfold len in *; lia|]. clear L.
        rewrite Hs at 1. rewrite slice_after.
        replace (len (upTo isWhitespace r1) + len m + 1 - (len m + 1))
          with (len (upTo isWhitespace r1)) by lia.
        rewrite R. unfold len. rewrite Nat2Z.id. apply upTo_prefix.
      * simpl. rewrite <- R. symmetry. now apply upTo_all.
  - apply afterFirst_none in A. rewrite A. reflexivity.
Qed.

(** ** The Host header *)

Lemma copyIP_16 (a : bytes) : List.length a = 16%nat -> copyIP a = a.
Proof.
  intros H. unfold copyIP. rewrite firstn_app, H, Nat.sub_diag.
  rewrite firstn_all2 by lia. rewrite firstn_O. apply app_nil_r.
Qed.

(** [hostFromBuf] parses the header value of the specification's words. *)
Lemma hostFromBuf_spec (event : BPFHTTPInfo) :
  hostFromBuf event =
  match hostHeaderValue (Buf event) with
  | None => ([], -1)
  | Some v =>
      match Go.SplitHostPort v with
      | None => ([], -1)
      | Some (h, portStr) => (h, fst (Go.Atoi portStr))
      end
  end.
Proof.
  unfold hostFromBuf, hostHeaderValue. rewrite cstr_upTo.
  set (b := upTo isNUL (Buf event)).
  destruct (Go.Index b (list_ascii_of_string "Host: ") <? 0); [reflexivity|].
  change (len (list_ascii_of_string "Host: ")) with 6.
  rewrite slice_to_end.
  set (t := skipn _ b).
  rewrite Index_single, IndexByte_upTo. fold isCR.
  assert (V : slice t 0
                (if (if existsb isCR t then len (upTo isCR t) else -1) <? 0
                 then len t
                 else if existsb isCR t then len (upTo isCR t) else -1)
              = upTo isCR t).
  { destruct (existsb isCR t) eqn:E.
    - pose proof (len_nonneg (upTo isCR t)) as P.
      destruct (len (upTo isCR t) <? 0) eqn:L; [lia|]. apply slice_upTo.
    - simpl. rewrite slice_to_end. simpl. symmetry. now apply upTo_all. }
  rewrite V. reflexivity.
Qed.

(** ** ReadHTTPInfoIntoSpan on a record that decodes *)

Lemma ReadHTTPInfoIntoSpan_decoded (record : bytes) (event : BPFHTTPInfo) :
  binary_Read_BPFHTTPInfo record = Some event ->
  exists s : request.Span,
    ReadHTTPInfoIntoSpan record = Returns (s, false, Go.nil) /\
    request.Method s = method event /\
    request.Path s = removeQuery (url event) /\
    request.Start s = int64_of_uint64 (StartMonotimeNs event) /\
    request.End_ s = int64_of_uint64 (EndMonotimeNs event) /\
    request.Status s = Status event /\
    (request.Host s, request.Peer s, request.HostPort s) = resolvedHost event.
Proof.
  intros H. unfold ReadHTTPInfoIntoSpan, resolvedHost. rewrite H.
  destruct (negb (S_port (ConnInfo event) =? 0) || negb (D_port (ConnInfo event) =? 0)).
  - eexists. split; [reflexivity|]. cbn. repeat split; reflexivity.
  - destruct (hostFromBuf event) as [host port].
    destruct (0 <=? port).
    + eexists. split; [reflexivity|]. cbn. repeat split; reflexivity.
    + eexists. split; [reflexivity|]. cbn. repeat split; reflexivity.
Qed.

(** ** Timestamps *)

Lemma int64_of_uint64_small (x : Z) :
  0 <= x < 2 ^ 63 -> int64_of_uint64 x = x.
Proof.
  intros H. unfold int64_of_uint64.
  rewrite Z.mod_small by lia.
  destruct (x <? 2 ^ 63) eqn:E; [reflexivity | lia].
Qed.

Lemma TCPToSQLToSpan_times (trace : TCPRequestInfo) (s : bytes) :
  request.Start (TCPToSQLToSpan trace s) = int64_of_uint64 (tcp_StartMonotimeNs trace) /\
  request.End_ (TCPToSQLToSpan trace s) = int64_of_uint64 (tcp_EndMonotimeNs trace) /\
  request.Type_ (TCPToSQLToSpan trace s) = request.EventTypeSQLClient.
Proof.
  unfold TCPToSQLToSpan.
  destruct (SQLParseOperationAndTable (cstr s)) as [m p].
  destruct (negb (S_port (tcp_ConnInfo trace) =? 0) || negb (D_port (tcp_ConnInfo trace) =? 0)).
  - destruct (reqHostInfo trace). repeat split.
  - repeat split.
Qed.

(** C1 (amended). The span builders copy the record's start and end times
    into the span, as signed 64-bit values, and compare nothing: the span of
    a record has [Start <= End] exactly when the record's times, so
    converted, are in that order, and a record that decodes yields its span
    whatever its times are. *)
Theorem span_times_are_the_records :
  (forall info : HTTPInfo,
      let s := httpInfoToSpan info in
      request.Start s = int64_of_uint64 (StartMonotimeNs (Info info)) /\
      request.End_ s = int64_of_uint64 (EndMonotimeNs (Info info)) /\
      (request.Start s <= request.End_ s <->
       int64_of_uint64 (StartMonotimeNs (Info info))
         <= int64_of_uint64 (EndMonotimeNs (Info info))) /\
      (0 <= StartMonotimeNs (Info info) <= EndMonotimeNs (Info info) ->
       EndMonotimeNs (Info info) < 2 ^ 63 ->
       request.Start s <= request.End_ s)) /\
  (forall (trace : TCPRequestInfo) (sql : bytes),
      let s := TCPToSQLToSpan trace sql in
      request.Start s = int64_of_uint64 (tcp_StartMonotimeNs trace) /\
      request.End_ s = int64_of_uint64 (tcp_EndMonotimeNs trace) /\
      (request.Start s <= request.End_ s <->
       int64_of_uint64 (tcp_StartMonotimeNs trace)
         <= int64_of_uint64 (tcp_EndMonotimeNs trace))) /\
  (forall (record : bytes) (event : BPFHTTPInfo),
      binary_Read_BPFHTTPInfo record = Some event ->
      exists s : request.Span,
        ReadHTTPInfoIntoSpan record = Returns (s, false, Go.nil) /\
        request.Start s = int64_of_uint64 (StartMonotimeNs event) /\
        request.End_ s = int64_of_uint64 (EndMonotimeNs event)).
Proof.
  split; [|split].
  - intros info s. subst s. cbn. repeat split; try (intros H; exact H).
    intros H1 H2. rewrite !int64_of_uint64_small by lia. lia.
  - intros trace sql s. subst s.
    destruct (TCPToSQLToSpan_times trace sql) as [S [E _]].
    rewrite S, E. repeat split; intros H; exact H.
  - intros record event H.
    destruct (ReadHTTPInfoIntoSpan_decoded record event H)
      as [s [R [_ [_ [S [E _]]]]]].
    exists s. auto.
Qed.

(** ** Host, peer and port *)


(** ** The path *)

Lemma removeQuery_before_query (p q : bytes) :
  existsb isQuery p = false -> p <> [] -> removeQuery (p ++ QMARK :: q) = p.
Proof.
  intros Hp Hne. rewrite removeQuery_upTo.
  destruct p as [|a p]; [congruence|].
  simpl in Hp. apply orb_false_iff in Hp. destruct Hp as [Ha Hp].
  cbn [app Go.headIs]. rewrite Ha.
  change (a :: p ++ QMARK :: q) with ((a :: p) ++ QMARK :: q).
  rewrite upTo_app by (simpl; now rewrite Ha, Hp).
  simpl. f_equal. apply app_nil_r.
Qed.

(** C4 (amended). The span's path is the text of the buffer between the
    first space and the next space, carriage return or newline, cut at the
    zero terminator, and without its query: everything from the first ['?']
    onward is removed, unless the ['?'] is the first byte of that text, which
    is then kept whole.  So [removeQuery] returns the text before the first
    ['?'] of a URL when that text is not empty, every URL that begins with
    ['?'] as it is, and every URL without ['?'] as it is. *)
Theorem span_path_of_request_line :
  (forall (record : bytes) (event : BPFHTTPInfo),
      binary_Read_BPFHTTPInfo record = Some event ->
      exists s : request.Span,
        ReadHTTPInfoIntoSpan record = Returns (s, false, Go.nil) /\
        request.Path s =
        let u := spec_url (Buf event) in
        if Go.headIs isQuery u then u else spec_removeQuery u) /\
  (forall p q : bytes,
      existsb isQuery p = false -> p <> [] ->
      removeQuery (p ++ QMARK :: q) = p) /\
  (forall q : bytes, removeQuery (QMARK :: q) = QMARK :: q) /\
  (forall u : bytes, existsb isQuery u = false -> removeQuery u = u).
Proof.
  split; [|split; [|split]].
  - intros record event H.
    destruct (ReadHTTPInfoIntoSpan_decoded record event H)
      as [s [R [_ [P _]]]].
    exists s. split; [exact R|].
    rewrite P, url_spec. apply removeQuery_upTo.
  - apply removeQuery_before_query.
  - intros q. rewrite removeQuery_upTo. reflexivity.
  - intros u Hu. rewrite removeQuery_upTo.
    destruct (Go.headIs isQuery u); [reflexivity|]. now apply upTo_all.
Qed.

Lemma endsPath_false (c : ascii) :
  endsPath c = false -> c <> SP /\ c <> CR /\ c <> LF /\ c <> NUL.
Proof.
  intros H. repeat split; intros ->; vm_compute in H; discriminate.
Qed.

Lemma spec_url_clean (buf : bytes) (c : ascii) :
  In c (spec_url buf) -> endsPath c = false.
Proof.
  unfold spec_url. destruct (afterFirst isSpace buf) as [rest|]; [|intros []].
  destruct (existsb isNUL (upTo isSpace buf)); [intros []|].
  apply upTo_clean.
Qed.

(** C5 (amended). The span's method holds no space, and the span's path
    holds no space, carriage return, newline or zero byte, whatever the bytes
    of the buffer are. *)
Theorem span_method_and_path_bytes (record : bytes) (event : BPFHTTPInfo) :
  binary_Read_BPFHTTPInfo record = Some event ->
  exists s : request.Span,
    ReadHTTPInfoIntoSpan record = Returns (s, false, Go.nil) /\
    (forall c, In c (request.Method s) -> c <> SP) /\
    (forall c, In c (request.Path s) ->
               c <> SP /\ c <> CR /\ c <> LF /\ c <> NUL).
Proof.
  intros H.
  destruct (ReadHTTPInfoIntoSpan_decoded record event H)
    as [s [R [M [P _]]]].
  exists s. split; [exact R|]. split.
  - intros c Hc. rewrite M, method_upTo in Hc.
    destruct (existsb isSpace (Buf event)); [|destruct Hc].
    apply upTo_clean in Hc. intros ->. vm_compute in Hc. discriminate.
  - intros c Hc. rewrite P in Hc. apply removeQuery_incl in Hc.
    rewrite url_spec in Hc. apply endsPath_false. now apply spec_url_clean in Hc.
Qed.

(** ** The SQL classifier *)

Lemma Index_bounds (b q : bytes) : -1 <= Go.Index b q <= len b.
Proof.
  split; [apply indexWhere_lower | apply indexWhere_upper].
Qed.

Lemma isSQL_loop_bounds (b : bytes) (qs : list bytes) :
  -1 <= isSQL_loop b qs <= len b.
Proof.
  induction qs as [|q qs IH]; simpl.
  - pose proof (len_nonneg b). lia.
  - destruct (0 <=? Go.Index b q); [apply Index_bounds | exact IH].
Qed.

(** The loop returns the index of the first verb of the list that occurs,
    and [-1] when none occurs. *)
Lemma isSQL_loop_first (b : bytes) (qs : list bytes) :
  (isSQL_loop b qs = -1 /\ forall q, In q qs -> Go.Index b q = -1) \/
  (exists before q after,
      qs = before ++ q :: after /\
      (forall q', In q' before -> Go.Index b q' = -1) /\
      0 <= Go.Index b q /\
      isSQL_loop b qs = Go.Index b q).
Proof.
  induction qs as [|q qs IH]; simpl.
  - left. split; [reflexivity | intros q []].
  - destruct (0 <=? Go.Index b q) eqn:E.
    + right. exists [], q, qs. apply Z.leb_le in E.
      split; [reflexivity|]. split; [intros q' []|]. split; [exact E | reflexivity].
    + apply Z.leb_gt in E. pose proof (Index_bounds b q) as B.
      assert (N : Go.Index b q = -1) by lia.
      destruct IH as [[L A]|[before [q0 [after [Q [A [P L]]]]]]].
      * left. split; [exact L|]. intros q' [<-|H]; auto.
      * right. exists (q :: before), q0, after. rewrite Q.
        split; [reflexivity|]. split; [|split; [exact P|]].
        -- intros q' [<-|H]; auto.
        -- rewrite <- Q. exact L.
Qed.

Lemma Index_occurrence (b q : bytes) :
  0 <= Go.Index b q ->
  Go.HasPrefix (skipn (Z.to_nat (Go.Index b q)) b) q = true /\
  (forall j : nat, Z.of_nat j < Go.Index b q -> Go.HasPrefix (skipn j b) q = false).
Proof.
  intros H. split.
  - exact (indexWhere_found (fun t => Go.HasPrefix t q) b _ eq_refl H).
  - intros j Hj. exact (indexWhere_least (fun t => Go.HasPrefix t q) b j Hj).
Qed.

Lemma ToUpper_ascii (s : bytes) :
  Go.isASCII s = true -> Go.ToUpper caseRanges s = map Go.upperByte s.
Proof. intros H. unfold Go.ToUpper. now rewrite H. Qed.

Lemma ReadTCPRequestIntoSpan_decoded (record : bytes) (event : TCPRequestInfo) :
  binary_Read_TCPRequestInfo record = Some event ->
  ReadTCPRequestIntoSpan record =
  let buf := clampedPrefix event in
  let sqlIndex := isSQL buf in
  if 0 <=? sqlIndex then
    if sqlIndex <=? len buf
    then Returns (TCPToSQLToSpan event (skipn (Z.to_nat sqlIndex) buf), false, Go.nil)
    else Panics
  else Returns (request.zero, true, Go.nil).
Proof.
  intros H. unfold ReadTCPRequestIntoSpan. rewrite H.
  rewrite slice_from_0. fold (clampedPrefix event).
  cbv zeta. destruct (0 <=? isSQL (clampedPrefix event)) eqn:E; [|reflexivity].
  unfold slice_ok. rewrite E, Z.leb_refl, andb_true_r. simpl.
  rewrite slice_to_end. reflexivity.
Qed.

(** Of a record with an ASCII payload in which [isSQL] finds a verb, the span
    is built from the payload without the bytes before the index. *)
Lemma ascii_payload_is_cut_at_index (record : bytes) (event : TCPRequestInfo) :
  binary_Read_TCPRequestInfo record = Some event ->
  Go.isASCII (clampedPrefix event) = true ->
  0 <= isSQL (clampedPrefix event) ->
  ReadTCPRequestIntoSpan record =
  Returns (TCPToSQLToSpan event
             (skipn (Z.to_nat (isSQL (clampedPrefix event))) (clampedPrefix event)),
           false, Go.nil).
Proof.
  intros H A P.
  rewrite (ReadTCPRequestIntoSpan_decoded record event H). cbv zeta.
  set (buf := clampedPrefix event) in *.
  destruct (0 <=? isSQL buf) eqn:E; [|lia].
  assert (B : isSQL buf <= len buf).
  { unfold isSQL. rewrite (ToUpper_ascii buf A).
    pose proof (isSQL_loop_bounds (map Go.upperByte buf) sqlVerbs) as B.
    unfold len in *. rewrite length_map in B. lia. }
  destruct (isSQL buf <=? len buf) eqn:E2; [reflexivity | lia].
Qed.

(** C2 (amended). [isSQL] tries the seven verbs in the order SELECT, UPDATE,
    DELETE, INSERT, ALTER, CREATE, DROP and returns the index of the first
    occurrence, in the upper-cased copy of the buffer, of the first verb of
    that order that occurs at all; verbs later in the order are not looked at,
    wherever they occur.  It returns [-1] when no verb occurs.  The upper-cased
    copy of an ASCII buffer is the buffer with its letters in upper case, byte
    for byte, and of a record with an ASCII payload in which a verb occurs the
    span is built from the payload without the bytes before that index. *)
Theorem isSQL_first_verb_in_list_order :
  (forall buf : bytes,
      let b := Go.ToUpper caseRanges buf in
      (isSQL buf = -1 /\ forall q, In q sqlVerbs -> Go.Index b q = -1) \/
      (exists before q after,
          sqlVerbs = before ++ q :: after /\
          (forall q', In q' before -> Go.Index b q' = -1) /\
          isSQL buf = Go.Index b q /\
          0 <= isSQL buf /\
          Go.HasPrefix (skipn (Z.to_nat (isSQL buf)) b) q = true /\
          (forall j : nat, Z.of_nat j < isSQL buf ->
                           Go.HasPrefix (skipn j b) q = false))) /\
  (forall buf : bytes,
      Go.isASCII buf = true -> Go.ToUpper caseRanges buf = map Go.upperByte buf) /\
  (forall (record : bytes) (event : TCPRequestInfo),
      binary_Read_TCPRequestInfo record = Some event ->
      let buf := clampedPrefix event in
      Go.isASCII buf = true ->
      0 <= isSQL buf ->
      ReadTCPRequestIntoSpan record =
      Returns (TCPToSQLToSpan event (skipn (Z.to_nat (isSQL buf)) buf), false, Go.nil)).
Proof.
  split; [|split].
  - intros buf b. unfold isSQL. fold b.
    destruct (isSQL_loop_first b sqlVerbs) as [[L A]|[before [q [after [Q [A [P L]]]]]]].
    + left. split; assumption.
    + right. exists before, q, after.
      destruct (Index_occurrence b q P) as [F M].
      rewrite L. repeat split; assumption.
  - apply ToUpper_ascii.
  - intros record event H buf A P.
    now apply ascii_payload_is_cut_at_index.
Qed.

(** An ASCII payload in which a verb occurs, in either case of its letters
    and also inside a longer word, yields a span of kind SQL client. *)
Lemma ascii_payload_with_verb_is_sql
    (record : bytes) (event : TCPRequestInfo) (q : bytes) :
  binary_Read_TCPRequestInfo record = Some event ->
  Go.isASCII (clampedPrefix event) = true ->
  In q sqlVerbs ->
  Go.Contains (map Go.upperByte (clampedPrefix event)) q = true ->
  exists s : request.Span,
    ReadTCPRequestIntoSpan record = Returns (s, false, Go.nil) /\
    request.Type_ s = request.EventTypeSQLClient /\
    request.Statement s =
      cstr (skipn (Z.to_nat (isSQL (clampedPrefix event))) (clampedPrefix event)).
Proof.
  intros H A Hq C.
  pose proof ascii_payload_is_cut_at_index as R.
  assert (P : 0 <= isSQL (clampedPrefix event)).
  { unfold isSQL. rewrite (ToUpper_ascii _ A).
    destruct (isSQL_loop_first (map Go.upperByte (clampedPrefix event)) sqlVerbs)
      as [[L N]|[before [q0 [after [Q [N [P L]]]]]]].
    - unfold Go.Contains in C. apply Z.leb_le in C. rewrite (N q Hq) in C. lia.
    - lia. }
  eexists. split; [exact (R record event H A P)|].
  split; [apply TCPToSQLToSpan_times|].
  unfold TCPToSQLToSpan.
  destruct (SQLParseOperationAndTable _).
  destruct (negb _ || negb _); [destruct (reqHostInfo event)|]; reflexivity.
Qed.

(** A payload whose upper-cased copy holds none of the verbs yields no span
    and no error: the record is ignored. *)
Lemma payload_without_verb_is_ignored (record : bytes) (event : TCPRequestInfo) :
  binary_Read_TCPRequestInfo record = Some event ->
  (forall q, In q sqlVerbs ->
             Go.Contains (Go.ToUpper caseRanges (clampedPrefix event)) q = false) ->
  ReadTCPRequestIntoSpan record = Returns (request.zero, true, Go.nil).
Proof.
  intros H N.
  rewrite (ReadTCPRequestIntoSpan_decoded record event H). cbv zeta.
  assert (E : isSQL (clampedPrefix event) = -1).
  { unfold isSQL.
    destruct (isSQL_loop_first (Go.ToUpper caseRanges (clampedPrefix event)) sqlVerbs)
      as [[L _]|[before [q0 [after [Q [_ [P L]]]]]]]; [exact L|].
    assert (I : In q0 sqlVerbs) by (rewrite Q; apply in_elt).
    specialize (N q0 I). unfold Go.Contains in N. apply Z.leb_gt in N. lia. }
  rewrite E. reflexivity.
Qed.

(** The upper-cased copy of four bytes that are no UTF-8 and a verb: every
    such byte has become the three bytes of U+FFFD. *)
Lemma ToUpper_invalidUTF8ThenDrop :
  caseRanges Go.RuneError = Go.RuneError ->
  Go.ToUpper caseRanges invalidUTF8ThenDrop =
  map byte_of_Z [239; 191; 189; 239; 191; 189; 239; 191; 189; 239; 191; 189]
    ++ list_ascii_of_string "DROP".
Proof.
  intros H. unfold Go.ToUpper.
  change (Go.isASCII invalidUTF8ThenDrop) with false. cbv iota.
  unfold Go.Map, invalidUTF8ThenDrop.
  cbn [map app Go.MapFrom list_ascii_of_string].
  repeat match goal with
  | |- context [Go.DecodeRune ?s] =>
      let v := eval vm_compute in (Go.DecodeRune s) in
      change (Go.DecodeRune s) with v; cbv iota beta
  end.
  change 65533 with Go.RuneError.
  unfold Go.unicode_ToUpper.
  change (Go.RuneError <=? 127) with false. cbv iota. rewrite H.
  vm_compute. reflexivity.
Qed.

(** C10 (the behaviour of the code at the failing input).  The payload is
    four bytes that are no UTF-8 followed by DROP, eight bytes in all.  Its
    upper-cased copy has sixteen bytes and the verb at index 12, and the
    reader slices the payload, not the copy, at that index: [buf[12:]] of a
    string of length 8 is a run-time panic, so no span is emitted. *)
Theorem invalid_utf8_before_verb_panics (record : bytes) (event : TCPRequestInfo) :
  caseRanges Go.RuneError = Go.RuneError ->
  binary_Read_TCPRequestInfo record = Some event ->
  clampedPrefix event = invalidUTF8ThenDrop ->
  isSQL (clampedPrefix event) = 12 /\
  len (clampedPrefix event) = 8 /\
  ReadTCPRequestIntoSpan record = Panics.
Proof.
  intros U H P.
  assert (I : isSQL (clampedPrefix event) = 12).
  { rewrite P. unfold isSQL. rewrite (ToUpper_invalidUTF8ThenDrop U). reflexivity. }
  split; [exact I|]. split; [rewrite P; reflexivity|].
  rewrite (ReadTCPRequestIntoSpan_decoded record event H). cbv zeta.
  rewrite I, P. reflexivity.
Qed.

(** ** Kernel capabilities *)

(** C6 (amended). [SupportsContextPropagation] is true exactly when the
    kernel is older than 5.10 or the lockdown mode read from the file is
    None.  It does not read the override flag: two kernels that differ in
    that flag alone get the same answer. *)
Theorem context_propagation_by_version_and_lockdown :
  (forall k : kernel,
      SupportsContextPropagation k = true <->
      (fst (KernelVersion k) < 5 \/
       (fst (KernelVersion k) = 5 /\ snd (KernelVersion k) < 10)) \/
      KernelLockdownMode k = KernelLockdownNone) /\
  (forall (version : Z * Z) (file : lockdownFile) (flag flag' : bool),
      SupportsContextPropagation (mkKernel version file flag) =
      SupportsContextPropagation (mkKernel version file flag')).
Proof.
  split.
  - intros k. unfold SupportsContextPropagation.
    destruct (KernelVersion k) as [major minor]. cbn [fst snd].
    destruct ((major <? 5) || ((major =? 5) && (minor <? 10))) eqn:V.
    + split; [intros _|reflexivity]. left.
      apply orb_true_iff in V. destruct V as [V|V].
      * left. now apply Z.ltb_lt.
      * right. apply andb_true_iff in V. destruct V as [V1 V2].
        split; [now apply Z.eqb_eq | now apply Z.ltb_lt].
    + apply orb_false_iff in V. destruct V as [V1 V2].
      apply Z.ltb_ge in V1.
      assert (N : ~ (major < 5 \/ major = 5 /\ minor < 10)).
      { intros [L|[E L]]; [lia|]. subst major. simpl in V2. apply Z.ltb_ge in V2. lia. }
      destruct (KernelLockdownMode k); simpl; split; intros H;
        try reflexivity; try discriminate; try (right; reflexivity);
        destruct H as [H|H]; try discriminate; contradiction.
  - intros version file flag flag'. reflexivity.
Qed.

(** *** Occurrences *)

Lemma HasPrefix_app (t q : bytes) :
  Go.HasPrefix t q = true <-> exists post, t = q ++ post.
Proof.
  revert t. induction q as [|a q IH]; intros t; simpl.
  - split; [intros _; now exists t | reflexivity].
  - destruct t as [|b t].
    + split; [discriminate | intros [post H]; discriminate].
    + rewrite andb_true_iff, Ascii.eqb_eq, IH. split.
      * intros [-> [post ->]]. now exists post.
      * intros [post [= -> ->]]. split; [reflexivity | now exists post].
Qed.






(** ** The dispatcher *)


(** ** The slice expressions stay within bounds *)

Lemma IndexByte_bounds (s : bytes) (c : ascii) : -1 <= Go.IndexByte s c <= len s.
Proof.
  split; [apply indexWhere_lower | apply indexWhere_upper].
Qed.

Lemma IndexAny_bounds (s chars : bytes) : -1 <= Go.IndexAny s chars <= len s.
Proof.
  split; [apply indexWhere_lower | apply indexWhere_upper].
Qed.

(** An occurrence of [q] at the index found ends within the string. *)
Lemma Index_room (s q : bytes) :
  0 <= Go.Index s q -> Go.Index s q + len q <= len s.
Proof.
  intros H. destruct (Index_occurrence s q H) as [F _].
  apply HasPrefix_app in F. destruct F as [post F].
  pose proof (f_equal (@List.length ascii) F) as L.
  rewrite length_skipn, length_app in L.
  pose proof (Index_bounds s q) as B. unfold len in *. lia.
Qed.

(** [url[:idx]] in [removeQuery], [chars[:addrLen]] in [cstr] and
    [buf[:space]] in [method]. *)
Lemma prefix_slices_in_bounds (s : bytes) (c : ascii) :
  (0 <= Go.IndexByte s c -> slice_ok s 0 (Go.IndexByte s c) = true) /\
  slice_ok s 0 (len s) = true /\
  (0 <= Go.Index s [c] -> slice_ok s 0 (Go.Index s [c]) = true).
Proof.
  pose proof (IndexByte_bounds s c) as B.
  pose proof (Index_bounds s [c]) as B2.
  pose proof (len_nonneg s) as P.
  unfold slice_ok. split; [|split]; intros;
    rewrite !andb_true_iff, !Z.leb_le; lia.
Qed.

(** [buf[space+1:bufEnd]] and [buf[space+1:end]] in [url]. *)
Lemma url_slices_in_bounds (event : BPFHTTPInfo) :
  let buf := Buf event in
  let space := Go.Index buf (list_ascii_of_string " ") in
  let bufEnd := if Go.IndexByte buf NUL <? 0 then len buf else Go.IndexByte buf NUL in
  let nextSpace := Go.IndexAny (slice buf (space + 1) bufEnd) [SP; CR; LF] in
  let end_ := if bufEnd <? nextSpace + space + 1 then bufEnd else nextSpace + space + 1 in
  0 <= space -> space + 1 <= bufEnd ->
  slice_ok buf (space + 1) bufEnd = true /\
  (0 <= nextSpace -> slice_ok buf (space + 1) end_ = true).
Proof.
  intros buf space bufEnd nextSpace end_ S E.
  pose proof (IndexByte_bounds buf NUL) as B.
  assert (BE : bufEnd <= len buf).
  { unfold bufEnd. destruct (Go.IndexByte buf NUL <? 0); lia. }
  unfold slice_ok. split.
  - rewrite !andb_true_iff, !Z.leb_le. lia.
  - intros N. unfold end_.
    destruct (bufEnd <? nextSpace + space + 1) eqn:L;
      rewrite !andb_true_iff, !Z.leb_le; [lia|].
    apply Z.ltb_ge in L. lia.
Qed.

(** [buf[idx+len(host):]] and [buf[:rIdx]] in [hostFromBuf]. *)
Lemma hostFromBuf_slices_in_bounds (buf : bytes) :
  let host := list_ascii_of_string "Host: " in
  let idx := Go.Index buf host in
  let rest := slice buf (idx + len host) (len buf) in
  let rIdx := if Go.Index rest [CR] <? 0 then len rest else Go.Index rest [CR] in
  0 <= idx ->
  slice_ok buf (idx + len host) (len buf) = true /\
  slice_ok rest 0 rIdx = true.
Proof.
  intros host idx rest rIdx H.
  pose proof (Index_room buf host H) as R.
  pose proof (len_nonneg host) as Ph.
  pose proof (Index_bounds rest [CR]) as B.
  pose proof (len_nonneg rest) as Pr.
  unfold slice_ok. fold idx in R. split.
  - rewrite !andb_true_iff, !Z.leb_le. lia.
  - unfold rIdx. destruct (Go.Index rest [CR] <? 0) eqn:L;
      rewrite !andb_true_iff, !Z.leb_le; [lia|].
    apply Z.ltb_ge in L. lia.
Qed.

(** ** Zero-terminated strings and the parts of the request line *)

(** A string is its text up to the first stop byte followed by a rest that
    is empty or begins with a stop byte. *)
Lemma upTo_split (f : ascii -> bool) (s : bytes) :
  exists rest, s = upTo f s ++ rest /\ (rest = [] \/ Go.headIs f rest = true).
Proof.
  induction s as [|a s [rest [E H]]]; simpl.
  - exists []. split; [reflexivity | now left].
  - destruct (f a) eqn:F.
    + exists (a :: s). split; [reflexivity | right; exact F].
    + exists rest. split; [simpl; now rewrite <- E | exact H].
Qed.

Lemma afterFirst_app (f : ascii -> bool) (m : bytes) (a : ascii) (r : bytes) :
  existsb f m = false -> f a = true -> afterFirst f (m ++ a :: r) = Some r.
Proof.
  intros Hm Ha. induction m as [|b m IH]; simpl.
  - now rewrite Ha.
  - simpl in Hm. apply orb_false_iff in Hm. destruct Hm as [Hb Hm].
    rewrite Hb. now apply IH.
Qed.

Lemma upTo_stop (f : ascii -> bool) (u rest : bytes) :
  existsb f u = false -> rest = [] \/ Go.headIs f rest = true ->
  upTo f (u ++ rest) = u.
Proof.
  intros Hu Hr. rewrite upTo_app by exact Hu.
  destruct Hr as [->|Hr]; [simpl; apply app_nil_r|].
  destruct rest as [|c rest]; [discriminate|]. simpl in *. rewrite Hr.
  apply app_nil_r.
Qed.

(** X3. [cstr] returns the text before the first zero byte: the result
    holds no zero byte, the argument is the result followed by nothing or by
    a zero byte and more, and [cstr] of the result is the result. *)
Theorem cstr_zero_free_prefix (chars : bytes) :
  (forall c, In c (cstr chars) -> c <> NUL) /\
  (exists rest, chars = cstr chars ++ rest /\
                (rest = [] \/ exists more, rest = NUL :: more)) /\
  (List.length (cstr chars) <= List.length chars)%nat /\
  cstr (cstr chars) = cstr chars.
Proof.
  rewrite !cstr_upTo. split; [|split; [|split]].
  - intros c Hc. apply upTo_clean in Hc. intros ->. discriminate.
  - destruct (upTo_split isNUL chars) as [rest [E H]].
    exists rest. split; [exact E|].
    destruct H as [H|H]; [now left|]. right.
    destruct rest as [|c more]; [discriminate|].
    simpl in H. apply Ascii.eqb_eq in H. subst c. now exists more.
  - apply upTo_length_le.
  - apply upTo_all, upTo_existsb.
Qed.

(** X6. [removeQuery] returns a prefix of the URL: the URL is the result
    followed by nothing or by a ['?'] and more.  The result holds a ['?'] only
    when the URL begins with one, and then it is the whole URL. *)
Theorem removeQuery_is_prefix (u : bytes) :
  (exists rest, u = removeQuery u ++ rest /\
                (rest = [] \/ exists more, rest = QMARK :: more)) /\
  (In QMARK (removeQuery u) -> Go.headIs isQuery u = true /\ removeQuery u = u).
Proof.
  rewrite removeQuery_upTo. destruct (Go.headIs isQuery u) eqn:H; split.
  - exists []. split; [symmetry; apply app_nil_r | now left].
  - intros _. split; reflexivity.
  - destruct (upTo_split isQuery u) as [rest [E R]].
    exists rest. split; [exact E|].
    destruct R as [R|R]; [now left|]. right.
    destruct rest as [|c more]; [discriminate|].
    simpl in R. apply Ascii.eqb_eq in R. subst c. now exists more.
  - intros Hin. apply upTo_clean in Hin. discriminate.
Qed.

(** X4. Whenever [method] or [url] returns text, the buffer is that method,
    a space, that URL, and a rest that is empty or begins with a space, a
    carriage return, a newline or a zero byte; the method holds no space and
    the URL no byte of these four.  The URL is empty when the buffer has no
    space or a zero byte before its first space. *)
Theorem request_line_parts (event : BPFHTTPInfo) :
  (existsb isSpace (Buf event) = false ->
   method event = [] /\ url event = []) /\
  (existsb isSpace (Buf event) = true ->
   existsb isSpace (method event) = false /\
   (existsb isNUL (method event) = true -> url event = []) /\
   (existsb isNUL (method event) = false ->
    existsb endsPath (url event) = false /\
    exists rest,
      Buf event = method event ++ SP :: url event ++ rest /\
      (rest = [] \/ Go.headIs endsPath rest = true))).
Proof.
  rewrite method_upTo, url_spec. unfold spec_url. split.
  - intros H. rewrite H. apply afterFirst_none in H. rewrite H. split; reflexivity.
  - intros H. rewrite H.
    destruct (afterFirst isSpace (Buf event)) as [rest|] eqn:A;
      [|apply afterFirst_none in A; congruence].
    destruct (afterFirst_split _ _ _ A) as [a [Ha Hs]].
    apply Ascii.eqb_eq in Ha. subst a.
    split; [apply upTo_existsb|]. split.
    + intros N. now rewrite N.
    + intros N. rewrite N. split; [apply upTo_existsb|].
      destruct (upTo_split endsPath rest) as [rest' [E R]].
      exists rest'. split; [|exact R].
      rewrite <- E. exact Hs.
Qed.

(** X5. A request line is read back: of a buffer made of a method without
    space or zero byte, a space, a URL without space, carriage return, newline
    or zero byte, and a rest that is empty (the buffer is full) or begins with
    one of these four bytes, [method] returns the method and [url] the URL,
    and the span of the record has that method and the URL without its
    query. *)
Theorem request_line_round_trip
    (record : bytes) (event : BPFHTTPInfo) (m u rest : bytes) :
  binary_Read_BPFHTTPInfo record = Some event ->
  Buf event = m ++ SP :: u ++ rest ->
  existsb isSpace m = false ->
  existsb isNUL m = false ->
  existsb endsPath u = false ->
  rest = [] \/ Go.headIs endsPath rest = true ->
  method event = m /\
  url event = u /\
  exists s : request.Span,
    ReadHTTPInfoIntoSpan record = Returns (s, false, Go.nil) /\
    request.Method s = m /\
    request.Path s = removeQuery u.
Proof.
  intros D B Sm Nm Eu R.
  assert (X : existsb isSpace (Buf event) = true).
  { rewrite B, existsb_app. simpl. apply orb_true_r. }
  assert (T : upTo isSpace (Buf event) = m).
  { rewrite B. rewrite upTo_app by exact Sm. simpl. apply app_nil_r. }
  assert (M : method event = m).
  { now rewrite method_upTo, X. }
  assert (U : url event = u).
  { rewrite url_spec. unfold spec_url. rewrite T, Nm, B.
    rewrite (afterFirst_app isSpace m SP (u ++ rest) Sm eq_refl).
    now apply upTo_stop. }
  split; [exact M|]. split; [exact U|].
  destruct (ReadHTTPInfoIntoSpan_decoded record event D) as [s [E [Ms [Ps _]]]].
  exists s. split; [exact E|]. rewrite Ms, Ps, M, U. split; reflexivity.
Qed.

(** ** The Host header read back *)

Lemma existsb_weaken (f g : ascii -> bool) (s : bytes) :
  (forall c, g c = true -> f c = true) ->
  existsb f s = false -> existsb g s = false.
Proof.
  intros W. induction s as [|a s IH]; simpl; [reflexivity|].
  intros H. apply orb_false_iff in H. destruct H as [Ha Hs].
  rewrite (IH Hs), orb_false_r.
  destruct (g a) eqn:G; [|reflexivity]. rewrite (W a G) in Ha. discriminate.
Qed.

Lemma splitsHostPort_byte (x : ascii) (s : bytes) :
  In x [":"; "["; "]"]%char ->
  existsb splitsHostPort s = false -> existsb (Ascii.eqb x) s = false.
Proof.
  intros Hx. apply existsb_weaken. intros c E.
  apply Ascii.eqb_eq in E. subst c.
  simpl in Hx. destruct Hx as [<-|[<-|[<-|[]]]]; reflexivity.
Qed.

Lemma digit_is_plain (c : ascii) :
  Go.isDigit c = true ->
  splitsHostPort c = false /\ isCR c = false /\
  Ascii.eqb c "-" = false /\ Ascii.eqb c "+" = false.
Proof.
  intros D. repeat split.
  - unfold splitsHostPort. simpl. rewrite orb_false_r.
    destruct (Ascii.eqb_spec c ":"); [subst; discriminate|].
    destruct (Ascii.eqb_spec c "["); [subst; discriminate|].
    destruct (Ascii.eqb_spec c "]"); [subst; discriminate|]. reflexivity.
  - unfold isCR. destruct (Ascii.eqb_spec CR c); [subst; discriminate | reflexivity].
  - destruct (Ascii.eqb_spec c "-"); [subst; discriminate | reflexivity].
  - destruct (Ascii.eqb_spec c "+"); [subst; discriminate | reflexivity].
Qed.

Lemma digits_are_plain (p : bytes) :
  forallb Go.isDigit p = true ->
  existsb splitsHostPort p = false /\ existsb isCR p = false.
Proof.
  induction p as [|c p IH]; simpl; [split; reflexivity|].
  intros H. apply andb_true_iff in H. destruct H as [Hc Hp].
  destruct (digit_is_plain c Hc) as [S [C _]]. destruct (IH Hp) as [S' C'].
  rewrite S, C, S', C'. split; reflexivity.
Qed.

Lemma IndexByte_absent (s : bytes) (c : ascii) :
  existsb (Ascii.eqb c) s = false -> Go.IndexByte s c = -1.
Proof. intros H. now rewrite IndexByte_upTo, H. Qed.

Lemma LastIndexByte_last (h : bytes) (c : ascii) (p : bytes) :
  existsb (Ascii.eqb c) p = false -> Go.LastIndexByte (h ++ c :: p) c = len h.
Proof.
  intros Hp.
  assert (N : Go.LastIndexByte p c = -1).
  { induction p as [|a p IH]; [reflexivity|].
    simpl in Hp. apply orb_false_iff in Hp. destruct Hp as [Ha Hp].
    simpl. rewrite (IH Hp). simpl.
    rewrite Ascii.eqb_sym, Ha. reflexivity. }
  induction h as [|a h IH].
  - simpl. rewrite N. simpl. now rewrite Ascii.eqb_refl.
  - cbn [app Go.LastIndexByte]. rewrite IH.
    pose proof (len_nonneg h) as P.
    destruct (0 <=? len h) eqn:L; [|lia].
    unfold len. simpl List.length. lia.
Qed.

(** [net.SplitHostPort] gives back a host and a port joined by a colon,
    when neither holds a colon or a square bracket. *)
Lemma SplitHostPort_join (h p : bytes) :
  existsb splitsHostPort h = false ->
  existsb splitsHostPort p = false ->
  Go.SplitHostPort (h ++ ":"%char :: p) = Some (h, p).
Proof.
  intros Hh Hp. unfold Go.SplitHostPort.
  assert (C : forall x, In x [":"; "["; "]"]%char ->
                        existsb (Ascii.eqb x) h = false /\
                        existsb (Ascii.eqb x) p = false).
  { intros x Hx. split; now apply splitsHostPort_byte. }
  rewrite (LastIndexByte_last h ":" p) by (apply C; simpl; auto).
  set (hp := h ++ ":"%char :: p).
  pose proof (len_nonneg h) as P.
  destruct (len h <? 0) eqn:L; [lia|]. clear L.
  assert (B : Go.headIs (Ascii.eqb "[") hp = false).
  { unfold hp. destruct h as [|a h]; [reflexivity|].
    simpl. destruct (C "["%char) as [H1 _]; [simpl; auto|].
    simpl in H1. now apply orb_false_iff in H1. }
  rewrite B.
  assert (S0 : slice hp 0 (len h) = h).
  { rewrite slice_from_0. unfold hp, len. rewrite Nat2Z.id.
    rewrite firstn_app, Nat.sub_diag, firstn_all. simpl. apply app_nil_r. }
  rewrite S0, (IndexByte_absent h ":") by (apply C; simpl; auto).
  cbv iota beta. change (0 <=? -1) with false. cbv iota.
  rewrite !slice_to_end. simpl skipn.
  assert (A : forall x, In x ["["; "]"]%char -> Go.IndexByte hp x = -1).
  { intros x Hx. apply IndexByte_absent. unfold hp.
    rewrite existsb_app. simpl.
    destruct (C x) as [H1 H2]; [right; exact Hx|].
    rewrite H1, H2.
    destruct Hx as [<-|[<-|[]]]; reflexivity. }
  rewrite !A by (simpl; auto). change (0 <=? -1) with false. cbv iota.
  f_equal. f_equal. unfold hp, len.
  replace (Z.to_nat (Z.of_nat (List.length h) + 1)) with (List.length h + 1)%nat by lia.
  rewrite skipn_app, skipn_all2 by lia.
  replace (List.length h + 1 - List.length h)%nat with 1%nat by lia. reflexivity.
Qed.

Lemma digitsValue_nonneg (p : bytes) :
  forallb Go.isDigit p = true -> 0 <= Go.digitsValue p.
Proof.
  unfold Go.digitsValue.
  assert (G : forall acc, 0 <= acc -> forallb Go.isDigit p = true ->
                          0 <= fold_left (fun n c => n * 10 + (byteZ c - 48)) p acc).
  { induction p as [|c p IH]; intros acc A H; simpl; [exact A|].
    simpl in H. apply andb_true_iff in H. destruct H as [Hc Hp].
    apply IH; [|exact Hp].
    unfold Go.isDigit, Go.between in Hc. apply andb_true_iff in Hc.
    destruct Hc as [L _]. apply Z.leb_le in L. lia. }
  apply G. lia.
Qed.

(** [strconv.Atoi] on decimal digits within the range of [int]. *)
Lemma Atoi_digits (p : bytes) :
  p <> [] -> forallb Go.isDigit p = true -> Go.digitsValue p <= Go.maxInt ->
  Go.Atoi p = (Go.digitsValue p, Go.nil).
Proof.
  intros Hne D M. unfold Go.Atoi.
  destruct p as [|c t]; [congruence|].
  assert (Dc : Go.isDigit c = true).
  { simpl in D. now apply andb_true_iff in D. }
  destruct (digit_is_plain c Dc) as [_ [_ [E1 E2]]].
  rewrite E1, E2, D.
  pose proof (digitsValue_nonneg (c :: t) D) as N.
  destruct (Go.maxInt <? Go.digitsValue (c :: t)) eqn:L1; [lia|].
  destruct (Go.digitsValue (c :: t) <? Go.minInt) eqn:L2; [|reflexivity].
  apply Z.ltb_lt in L2. unfold Go.minInt in L2. lia.
Qed.

(** X7. A Host header is read back.  When the zero-terminated buffer holds
    its first ["Host: "] followed by a host without colon, square bracket or
    carriage return, a colon, a decimal port within the range of [int], and
    then the end or a carriage return, [hostFromBuf] returns that host and the
    number of the port; the span of such a record without connection
    information has that host, the port as a [uint16], and no peer. *)
Theorem host_header_round_trip
    (record : bytes) (event : BPFHTTPInfo) (pre h p rest : bytes) :
  binary_Read_BPFHTTPInfo record = Some event ->
  S_port (ConnInfo event) = 0 ->
  D_port (ConnInfo event) = 0 ->
  cstr (Buf event)
    = pre ++ list_ascii_of_string "Host: " ++ (h ++ ":"%char :: p) ++ rest ->
  Go.Index (cstr (Buf event)) (list_ascii_of_string "Host: ") = len pre ->
  existsb splitsHostPort h = false ->
  existsb isCR h = false ->
  p <> [] ->
  forallb Go.isDigit p = true ->
  Go.digitsValue p <= Go.maxInt ->
  rest = [] \/ Go.headIs isCR rest = true ->
  hostFromBuf event = (h, Go.digitsValue p) /\
  exists s : request.Span,
    ReadHTTPInfoIntoSpan record = Returns (s, false, Go.nil) /\
    request.Host s = h /\
    request.HostPort s = Go.digitsValue p mod 2 ^ 16 /\
    request.Peer s = [].
Proof.
  intros D SP0 DP0 T I Hh Ch Pne Pd Pm R.
  destruct (digits_are_plain p Pd) as [Sp Cp].
  assert (HF : hostFromBuf event = (h, Go.digitsValue p)).
  { rewrite hostFromBuf_spec. unfold hostHeaderValue.
    rewrite <- cstr_upTo, I.
    pose proof (len_nonneg pre) as P.
    destruct (len pre <? 0) eqn:L; [lia|]. clear L.
    rewrite T.
    replace (Z.to_nat (len pre + 6))
      with (List.length pre + List.length (list_ascii_of_string "Host: "))%nat
      by (unfold len; simpl; lia).
    rewrite app_assoc, skipn_app, skipn_all2 by (rewrite length_app; lia).
    rewrite length_app.
    replace (List.length pre + List.length (list_ascii_of_string "Host: ")
             - (List.length pre + List.length (list_ascii_of_string "Host: ")))%nat
      with 0%nat by lia.
    simpl skipn at 1. rewrite app_nil_l.
    rewrite upTo_stop; [| |exact R].
    - rewrite (SplitHostPort_join h p Hh Sp).
      now rewrite (Atoi_digits p Pne Pd Pm).
    - rewrite existsb_app. simpl. now rewrite Ch, Cp. }
  split; [exact HF|].
  destruct (ReadHTTPInfoIntoSpan_decoded record event D)
    as [s [E [_ [_ [_ [_ [_ HR]]]]]]].
  exists s. split; [exact E|].
  unfold resolvedHost in HR. rewrite SP0, DP0, HF in HR. simpl negb in HR.
  cbv iota beta in HR. simpl orb in HR. cbv iota in HR.
  pose proof (digitsValue_nonneg p Pd) as N.
  destruct (0 <=? Go.digitsValue p) eqn:L; [|lia].
  injection HR as H0 H1 H2. split; [exact H0|]. split; [exact H2 | exact H1].
Qed.

(** ** Ports *)

(** X8. The port of an HTTP span is a port number: for a record whose
    destination port is a [uint16], as the layout has it, the span's
    [HostPort] lies in [0, 65535], whether it comes from the connection or
    from a Host header, whatever number that header names. *)
Theorem http_span_port_in_range
    (record : bytes) (event : BPFHTTPInfo) (s : request.Span) :
  binary_Read_BPFHTTPInfo record = Some event ->
  0 <= D_port (ConnInfo event) < 2 ^ 16 ->
  ReadHTTPInfoIntoSpan record = Returns (s, false, Go.nil) ->
  0 <= request.HostPort s <= 65535.
Proof.
  intros D P E.
  destruct (ReadHTTPInfoIntoSpan_decoded record event D)
    as [s' [E' [_ [_ [_ [_ [_ HR]]]]]]].
  rewrite E in E'. injection E' as <-.
  unfold resolvedHost in HR.
  destruct (negb (S_port (ConnInfo event) =? 0) || negb (D_port (ConnInfo event) =? 0)).
  - injection HR as _ _ H. rewrite H. lia.
  - destruct (hostFromBuf event) as [host port].
    destruct (0 <=? port).
    + injection HR as _ _ H. rewrite H. unfold uint16_of_int.
      pose proof (Z.mod_pos_bound port (2 ^ 16) ltac:(lia)). lia.
    + injection HR as _ _ H. rewrite H. lia.
Qed.

(** ** The spans of the TCP reader *)

Lemma cstr_part (s : bytes) :
  exists post, s = cstr s ++ post.
Proof.
  rewrite cstr_upTo. destruct (upTo_split isNUL s) as [rest [E _]].
  now exists rest.
Qed.

(** X9. Every span the TCP reader emits is a SQL client span with status
    0 and content length 0.  Its statement holds no zero byte and is a part of
    the classified payload: the payload is the bytes before the index of
    [isSQL], the statement, and a rest.  Method and path are what the
    statement parser reads in the statement.  Without connection information
    the span has no peer, no host and the port 0; with it, the formatted
    addresses and the destination port. *)
Theorem tcp_span_shape
    (record : bytes) (event : TCPRequestInfo) (s : request.Span) :
  binary_Read_TCPRequestInfo record = Some event ->
  ReadTCPRequestIntoSpan record = Returns (s, false, Go.nil) ->
  request.Type_ s = request.EventTypeSQLClient /\
  request.Status s = 0 /\
  request.ContentLength s = 0 /\
  (forall c, In c (request.Statement s) -> c <> NUL) /\
  (exists pre post,
      clampedPrefix event = pre ++ request.Statement s ++ post /\
      len pre = isSQL (clampedPrefix event)) /\
  (request.Method s, request.Path s)
    = SQLParseOperationAndTable (request.Statement s) /\
  (request.Peer s, request.Host s, request.HostPort s)
    = (if negb (S_port (tcp_ConnInfo event) =? 0)
          || negb (D_port (tcp_ConnInfo event) =? 0)
       then (IP_String (copyIP (S_addr (tcp_ConnInfo event))),
             IP_String (copyIP (D_addr (tcp_ConnInfo event))),
             D_port (tcp_ConnInfo event))
       else ([], [], 0)).
Proof.
  intros D E.
  rewrite (ReadTCPRequestIntoSpan_decoded record event D) in E. cbv zeta in E.
  set (buf := clampedPrefix event) in *.
  destruct (0 <=? isSQL buf) eqn:P; [|discriminate].
  destruct (isSQL buf <=? len buf) eqn:B; [|discriminate].
  apply Z.leb_le in P. apply Z.leb_le in B.
  injection E as <-.
  set (tail := skipn (Z.to_nat (isSQL buf)) buf).
  assert (F : request.Statement (TCPToSQLToSpan event tail) = cstr tail /\
              request.Status (TCPToSQLToSpan event tail) = 0 /\
              request.ContentLength (TCPToSQLToSpan event tail) = 0 /\
              (request.Method (TCPToSQLToSpan event tail),
               request.Path (TCPToSQLToSpan event tail))
                = SQLParseOperationAndTable (cstr tail) /\
              (request.Peer (TCPToSQLToSpan event tail),
               request.Host (TCPToSQLToSpan event tail),
               request.HostPort (TCPToSQLToSpan event tail))
                = (if negb (S_port (tcp_ConnInfo event) =? 0)
                      || negb (D_port (tcp_ConnInfo event) =? 0)
                   then (IP_String (copyIP (S_addr (tcp_ConnInfo event))),
                         IP_String (copyIP (D_addr (tcp_ConnInfo event))),
                         D_port (tcp_ConnInfo event))
                   else ([], [], 0))).
  { unfold TCPToSQLToSpan, reqHostInfo.
    destruct (SQLParseOperationAndTable (cstr tail)) as [m p].
    destruct (negb (S_port (tcp_ConnInfo event) =? 0)
              || negb (D_port (tcp_ConnInfo event) =? 0));
      repeat split; reflexivity. }
  destruct F as [St [Ss [Cl [MP PH]]]].
  split; [apply TCPToSQLToSpan_times|].
  split; [exact Ss|]. split; [exact Cl|]. rewrite St. split; [|split; [|split]].
  - intros c Hc. rewrite cstr_upTo in Hc. apply upTo_clean in Hc.
    intros ->. discriminate.
  - destruct (cstr_part tail) as [post Hp].
    exists (firstn (Z.to_nat (isSQL buf)) buf), post. split.
    + rewrite <- Hp. symmetry. apply firstn_skipn.
    + unfold len in *. rewrite length_firstn. lia.
  - exact MP.
  - exact PH.
Qed.

(** X10. The classified payload never exceeds the buffer: it has [len]
    bytes when [0 <= len <= capacity] and the whole buffer otherwise.  And the
    TCP reader does not panic on a record whose buffer is ASCII, whatever its
    [len] field holds. *)
Theorem ascii_buffer_never_panics :
  (forall event : TCPRequestInfo,
      len (clampedPrefix event) <= len (tcp_Buf event) /\
      (0 <= tcp_Len event <= len (tcp_Buf event) ->
       len (clampedPrefix event) = tcp_Len event) /\
      (tcp_Len event < 0 \/ len (tcp_Buf event) < tcp_Len event ->
       clampedPrefix event = tcp_Buf event)) /\
  (forall record : bytes,
      (forall event, binary_Read_TCPRequestInfo record = Some event ->
                     Go.isASCII (tcp_Buf event) = true) ->
      ReadTCPRequestIntoSpan record <> Panics).
Proof.
  split.
  - intros event. unfold clampedPrefix. cbv zeta.
    set (b := tcp_Buf event). set (l := tcp_Len event).
    pose proof (len_nonneg b) as Pb.
    destruct ((l <? 0) || (len b <? l)) eqn:C.
    + unfold len in *. rewrite Nat2Z.id, firstn_all.
      split; [lia|]. split; [|reflexivity].
      intros [L0 L1]. apply orb_true_iff in C.
      destruct C as [C|C]; apply Z.ltb_lt in C; lia.
    + apply orb_false_iff in C. destruct C as [C0 C1].
      apply Z.ltb_ge in C0. apply Z.ltb_ge in C1.
      unfold len in *. rewrite length_firstn.
      split; [lia|]. split; [lia|]. lia.
  - intros record A.
    destruct (binary_Read_TCPRequestInfo record) as [event|] eqn:D.
    + rewrite (ReadTCPRequestIntoSpan_decoded record event D). cbv zeta.
      set (buf := clampedPrefix event).
      assert (Ab : Go.isASCII buf = true).
      { unfold buf, clampedPrefix, Go.isASCII. cbv zeta.
        specialize (A event eq_refl). unfold Go.isASCII in A.
        rewrite forallb_forall in A |- *.
        intros c Hc. apply A.
        rewrite <- (firstn_skipn (Z.to_nat
          (if (tcp_Len event <? 0) || (len (tcp_Buf event) <? tcp_Len event)
           then len (tcp_Buf event) else tcp_Len event)) (tcp_Buf event)).
        apply in_or_app. left. exact Hc. }
      assert (B : isSQL buf <= len buf).
      { unfold isSQL. rewrite (ToUpper_ascii buf Ab).
        pose proof (isSQL_loop_bounds (map Go.upperByte buf) sqlVerbs) as B.
        unfold len in *. rewrite length_map in B. lia. }
      destruct (0 <=? isSQL buf); [|discriminate].
      destruct (isSQL buf <=? len buf) eqn:E; [discriminate | lia].
    + unfold ReadTCPRequestIntoSpan. rewrite D. discriminate.
Qed.

(** ** The lockdown file and the kernel version *)


(** X12. A kernel older than 5.10 supports context propagation whatever
    its lockdown file holds, and no eBPF loops.  On a kernel that supports
    eBPF loops, context propagation is supported exactly when the lockdown
    mode is None. *)
Theorem version_gates (k : kernel) :
  (fst (KernelVersion k) < 5 \/
   (fst (KernelVersion k) = 5 /\ snd (KernelVersion k) < 10) ->
   SupportsEBPFLoops k = false /\
   forall (file : lockdownFile) (flag : bool),
     SupportsContextPropagation (mkKernel (KernelVersion k) file flag) = true) /\
  (SupportsEBPFLoops k = true ->
   SupportsContextPropagation k
     = KernelLockdown_eqb (KernelLockdownMode k) KernelLockdownNone).
Proof.
  unfold SupportsEBPFLoops, SupportsContextPropagation. cbn [KernelVersion].
  destruct (KernelVersion k) as [major minor]. cbn [fst snd]. split.
  - intros V.
    assert (O : (major <? 5) || ((major =? 5) && (minor <? 10)) = true).
    { destruct V as [V|[V1 V2]].
      - apply orb_true_iff. left. now apply Z.ltb_lt.
      - apply orb_true_iff. right. apply andb_true_iff.
        split; [now apply Z.eqb_eq | now apply Z.ltb_lt]. }
    split.
    + apply orb_false_iff. split.
      * apply Z.ltb_ge. lia.
      * apply andb_false_iff.
        destruct V as [V|[V1 V2]]; [left; apply Z.eqb_neq; lia|].
        right. apply Z.leb_gt. lia.
    + intros file flag. now rewrite O.
  - intros L.
    assert (O : (major <? 5) || ((major =? 5) && (minor <? 10)) = false).
    { apply orb_true_iff in L. apply orb_false_iff.
      destruct L as [L|L].
      - apply Z.ltb_lt in L. split; [apply Z.ltb_ge; lia|].
        apply andb_false_iff. left. apply Z.eqb_neq. lia.
      - apply andb_true_iff in L. destruct L as [L1 L2].
        apply Z.eqb_eq in L1. apply Z.leb_le in L2.
        split; [apply Z.ltb_ge; lia|].
        apply andb_false_iff. right. apply Z.ltb_ge. lia. }
    rewrite O.
    destruct (KernelLockdown_eqb (KernelLockdownMode k) KernelLockdownNone); reflexivity.
Qed.

(** ** commName *)

Lemma dropWhile_app_all (f : ascii -> bool) (l r : bytes) :
  forallb f l = true -> Go.dropWhile f (l ++ r) = Go.dropWhile f r.
Proof.
  induction l as [|a l IH]; simpl; [reflexivity|].
  intros H. apply andb_true_iff in H. destruct H as [Ha Hl].
  rewrite Ha. now apply IH.
Qed.

(** [strings.TrimSpace] removes the ASCII white space around a text that
    begins and ends with printable ASCII bytes. *)
Lemma TrimSpace_surrounded (lead name trail : bytes) :
  forallb Go.asciiSpace lead = true ->
  forallb Go.asciiSpace trail = true ->
  Go.headIs printable name = true ->
  Go.headIs printable (rev name) = true ->
  Go.TrimSpace TrimFunc_IsSpace TrimRightFunc_IsSpace (lead ++ name ++ trail) = name.
Proof.
  intros L T H R. unfold Go.TrimSpace.
  rewrite (dropWhile_app_all _ lead _ L).
  destruct name as [|c t]; [discriminate|].
  simpl in H. unfold printable in H. apply andb_true_iff in H.
  destruct H as [A S]. apply negb_true_iff in S.
  apply Z.ltb_lt in A. apply Z.leb_gt in A.
  cbn [app Go.dropWhile]. rewrite S, A.
  change (c :: t ++ trail) with ((c :: t) ++ trail).
  rewrite rev_app_distr.
  rewrite (dropWhile_app_all _ (rev trail) _)
    by (rewrite forallb_forall in T |- *; intros x Hx; apply T; now apply in_rev).
  destruct (rev (c :: t)) as [|d r] eqn:E; [discriminate|].
  simpl in R. unfold printable in R. apply andb_true_iff in R.
  destruct R as [A' S']. apply negb_true_iff in S'.
  apply Z.ltb_lt in A'. apply Z.leb_gt in A'.
  cbn [Go.dropWhile]. rewrite S', A'.
  rewrite <- E. apply rev_involutive.
Qed.

(** X13. [commName] is empty when the comm file of the process does not
    exist or cannot be read.  When the file holds a name that begins and ends
    with printable ASCII bytes, with ASCII white space around it, such as the
    newline the kernel appends, [commName] is that name. *)
Theorem commName_of_proc_file (pid : Z) :
  (os_Stat (procPath pid) = StatNotExist -> commName pid = []) /\
  (os_ReadFile (procPath pid) = None -> commName pid = []) /\
  (forall lead name trail : bytes,
      os_Stat (procPath pid) <> StatNotExist ->
      os_ReadFile (procPath pid) = Some (lead ++ name ++ trail) ->
      forallb Go.asciiSpace lead = true ->
      forallb Go.asciiSpace trail = true ->
      Go.headIs printable name = true ->
      Go.headIs printable (rev name) = true ->
      commName pid = name).
Proof.
  unfold commName. split; [|split].
  - intros H. now rewrite H.
  - intros H. rewrite H. destruct (os_Stat (procPath pid)); reflexivity.
  - intros lead name trail S Rd L T H R. rewrite Rd.
    rewrite (TrimSpace_surrounded lead name trail L T H R).
    destruct (os_Stat (procPath pid)); [reflexivity | congruence | reflexivity].
Qed.

(** ** The Kubernetes decorator *)

Lemma bytes_eqb_eq (a b : bytes) : bytes_eqb a b = true <-> a = b.
Proof.
  revert b. induction a as [|x a IH]; intros [|y b]; simpl;
    try (split; [reflexivity | reflexivity]);
    try (split; discriminate).
  rewrite andb_true_iff, Ascii.eqb_eq, IH. split.
  - intros [-> ->]. reflexivity.
  - intros [= -> ->]. split; reflexivity.
Qed.

Lemma bytes_eqb_refl (a : bytes) : bytes_eqb a a = true.
Proof. now apply bytes_eqb_eq. Qed.

Lemma bytes_eqb_neq (a b : bytes) : a <> b -> bytes_eqb a b = false.
Proof.
  intros H. destruct (bytes_eqb a b) eqn:E; [|reflexivity].
  apply bytes_eqb_eq in E. contradiction.
Qed.

Lemma lower_of_upper (c : ascii) :
  Go.lowerByte (Go.upperByte c) = Go.lowerByte c /\
  (byteZ (Go.upperByte c) <? Go.RuneSelf) = (byteZ c <? Go.RuneSelf).
Proof.
  destruct c as [[] [] [] [] [] [] [] []]; split; reflexivity.
Qed.

Lemma ToLower_of_upper (e : bytes) :
  Go.isASCII e = true ->
  Go.ToLower lowerRanges (map Go.upperByte e) = Go.ToLower lowerRanges e.
Proof.
  intros A. unfold Go.ToLower.
  assert (A' : Go.isASCII (map Go.upperByte e) = true).
  { unfold Go.isASCII in *. rewrite forallb_forall in A |- *.
    intros c Hc. apply in_map_iff in Hc. destruct Hc as [x [<- Hx]].
    destruct (lower_of_upper x) as [_ ->]. now apply A. }
  rewrite A, A', map_map. apply map_ext.
  intros c. apply lower_of_upper.
Qed.

(** X14. The decorator is enabled by the value "true", and by "autodetect"
    when the Kubernetes configuration loads, and by nothing else: every other
    value disables it.  The letters of the value count without their case: an
    ASCII value and the same value in upper case enable or disable alike. *)
Theorem Enabled_values
    (e cluster path : bytes) (timeout : Z) (dropExternal : bool) :
  let d := transform.mkKubernetesDecorator e cluster path timeout dropExternal in
  (Enabled d = true <->
   Go.ToLower lowerRanges e = transform.EnabledTrue \/
   (Go.ToLower lowerRanges e = transform.EnabledAutodetect /\
    kube_LoadConfig path = true)) /\
  (Go.isASCII e = true ->
   Enabled (transform.mkKubernetesDecorator (map Go.upperByte e) cluster path
              timeout dropExternal)
   = Enabled d).
Proof.
  cbv zeta. split.
  - unfold Enabled. cbn [transform.Enable transform.KubeconfigPath].
    set (v := Go.ToLower lowerRanges e).
    destruct (bytes_eqb v transform.EnabledTrue) eqn:T.
    + apply bytes_eqb_eq in T. split; [intros _; now left | reflexivity].
    + assert (NT : v <> transform.EnabledTrue).
      { intros ->. rewrite bytes_eqb_refl in T. discriminate. }
      destruct (bytes_eqb v transform.EnabledFalse || bytes_eqb v []) eqn:F.
      * split; [discriminate|]. intros [H|[H _]]; [contradiction|].
        rewrite H in F. discriminate.
      * destruct (bytes_eqb v transform.EnabledAutodetect) eqn:Au.
        -- apply bytes_eqb_eq in Au.
           destruct (kube_LoadConfig path); split; try discriminate; try reflexivity.
           ++ intros _. right. split; [exact Au | reflexivity].
           ++ intros [H|[_ H]]; [contradiction | discriminate].
        -- split; [discriminate|]. intros [H|[H _]]; [contradiction|].
           rewrite H, bytes_eqb_refl in Au. discriminate.
  - intros A. unfold Enabled. cbn [transform.Enable transform.KubeconfigPath].
    now rewrite (ToLower_of_upper e A).
Qed.

(** *** The attribute map *)

Lemma attrs_get_set_same (k v : bytes) (m : transform.attrs) :
  transform.attrs_get k (transform.attrs_set k v m) = Some v.
Proof.
  unfold transform.attrs_get, transform.attrs_set. simpl.
  now rewrite bytes_eqb_refl.
Qed.

Lemma attrs_get_set_other (k k' v : bytes) (m : transform.attrs) :
  bytes_eqb k k' = false ->
  transform.attrs_get k (transform.attrs_set k' v m) = transform.attrs_get k m.
Proof.
  intros N. unfold transform.attrs_get, transform.attrs_set. simpl. rewrite N.
  induction m as [|[k0 v0] m IH]; simpl; [reflexivity|].
  destruct (bytes_eqb k' k0) eqn:E; simpl.
  - apply bytes_eqb_eq in E. subst k0. rewrite N. exact IH.
  - destruct (bytes_eqb k k0); [reflexivity | exact IH].
Qed.

Lemma find_in_app {A : Type} (f : A -> bool) (l r : list A) :
  find f (l ++ r) = match find f l with Some x => Some x | None => find f r end.
Proof.
  induction l as [|a l IH]; simpl; [reflexivity|].
  destruct (f a); [reflexivity | exact IH].
Qed.

(** After the loop over the owners, a key that is the label of an owner
    holds the name of the last such owner of the chain; any other key holds
    what it held before. *)
Lemma setOwners_get (k : bytes) (owners : list (kube.Owner OwnerType))
    (m : transform.attrs) :
  transform.attrs_get k (setOwners owners m) =
  match find (fun o => bytes_eqb k (LabelName (kube.OwnerType o))) (rev owners) with
  | Some o => Some (kube.OwnerName o)
  | None => transform.attrs_get k m
  end.
Proof.
  revert m. induction owners as [|o up IH]; intros m; [reflexivity|].
  cbn [setOwners rev]. rewrite IH, find_in_app.
  destruct (find (fun o0 => bytes_eqb k (LabelName (kube.OwnerType o0))) (rev up));
    [reflexivity|].
  simpl. destruct (bytes_eqb k (LabelName (kube.OwnerType o))) eqn:E.
  - apply bytes_eqb_eq in E. subst k. apply attrs_get_set_same.
  - now apply attrs_get_set_other.
Qed.

(** X15. [do] never leaves the metadata map nil, and decorating a span a
    second time changes nothing.  A service name the user defined (auto name
    off) and a namespace the user defined (not empty) are kept.  For a process
    of no known pod, name, namespace and UID are kept and the map is empty. *)
Theorem do_decorates_once (pidNamespace : Z) (id : transform.ServiceID) :
  transform.Metadata (do pidNamespace id) <> None /\
  do pidNamespace (do pidNamespace id) = do pidNamespace id /\
  transform.AutoName (do pidNamespace id) = transform.AutoName id /\
  (transform.AutoName id = false ->
   transform.Name (do pidNamespace id) = transform.Name id) /\
  (transform.Namespace id <> [] ->
   transform.Namespace (do pidNamespace id) = transform.Namespace id) /\
  (OwnerPodInfo pidNamespace = None ->
   do pidNamespace id =
   transform.mkServiceID (transform.Name id) (transform.Namespace id)
     (transform.UID id) (transform.AutoName id) (Some [])).
Proof.
  unfold do.
  destruct (OwnerPodInfo pidNamespace) as [info|]; cbn [transform.Metadata].
  - split; [discriminate|]. split; [|split; [reflexivity|split; [|split]]].
    + unfold appendMetadata.
      cbn [transform.AutoName transform.Name transform.Namespace].
      f_equal.
      * destruct (transform.AutoName id); reflexivity.
      * destruct (bytes_eqb (transform.Namespace id) []) eqn:E.
        -- destruct (bytes_eqb (kube.Namespace info) []); reflexivity.
        -- now rewrite E.
    + intros A. unfold appendMetadata. cbn [transform.Name]. now rewrite A.
    + intros N. unfold appendMetadata. cbn [transform.Namespace].
      now rewrite (bytes_eqb_neq _ _ N).
    + discriminate.
  - split; [discriminate|]. repeat split; reflexivity.
Qed.

Lemma NoDup_five (a b c d e : bytes) :
  NoDup [a; b; c; d; e] ->
  a <> b /\ a <> c /\ a <> d /\ a <> e /\ b <> c /\ b <> d /\ b <> e /\
  c <> d /\ c <> e /\ d <> e.
Proof.
  intros ND.
  inversion ND as [|? ? N1 ND1]; subst.
  inversion ND1 as [|? ? N2 ND2]; subst.
  inversion ND2 as [|? ? N3 ND3]; subst.
  inversion ND3 as [|? ? N4 ND4]; subst.
  repeat match goal with
  | |- _ /\ _ => split
  | |- _ <> _ => intros Q; subst
  end;
  first [ solve [apply N1; simpl; repeat (first [left; reflexivity | right])]
        | solve [apply N2; simpl; repeat (first [left; reflexivity | right])]
        | solve [apply N3; simpl; repeat (first [left; reflexivity | right])]
        | solve [apply N4; simpl; repeat (first [left; reflexivity | right])] ].
Qed.

(** X16. The metadata [appendMetadata] writes.  A key that is the label of
    an owner holds the name of the last owner with that label in the chain,
    the topmost one.  When the five attribute names of the pod differ from
    each other, each of them that is no owner's label holds its field of the
    pod: namespace, pod name, node name, pod UID and start time. *)
Theorem appendMetadata_metadata
    (id : transform.ServiceID) (info : kube.PodInfo OwnerType) :
  exists m : transform.attrs,
    transform.Metadata (appendMetadata id info) = Some m /\
    (forall (k : bytes) (below : list (kube.Owner OwnerType))
            (o : kube.Owner OwnerType) (above : list (kube.Owner OwnerType)),
        kube.Owners info = below ++ o :: above ->
        LabelName (kube.OwnerType o) = k ->
        (forall o', In o' above -> LabelName (kube.OwnerType o') <> k) ->
        transform.attrs_get k m = Some (kube.OwnerName o)) /\
    (NoDup [K8sNamespaceName; K8sPodName; K8sNodeName; K8sPodUID; K8sPodStartTime] ->
     forall k v,
       In (k, v) [ (K8sNamespaceName, kube.Namespace info);
                   (K8sPodName, kube.Name info);
                   (K8sNodeName, kube.NodeName info);
                   (K8sPodUID, kube.UID info);
                   (K8sPodStartTime, kube.StartTimeStr info) ] ->
       (forall o, In o (kube.Owners info) -> LabelName (kube.OwnerType o) <> k) ->
       transform.attrs_get k m = Some v).
Proof.
  eexists. split; [reflexivity|]. split.
  - intros k below o above E L A. rewrite setOwners_get, E.
    rewrite rev_app_distr. cbn [rev]. rewrite <- app_assoc, find_in_app.
    assert (F : find (fun o0 => bytes_eqb k (LabelName (kube.OwnerType o0))) (rev above)
                = None).
    { destruct (find _ (rev above)) as [o'|] eqn:F; [|reflexivity].
      apply find_some in F. destruct F as [I B].
      apply bytes_eqb_eq in B. apply in_rev in I.
      exfalso. exact (A o' I (eq_sym B)). }
    rewrite F. simpl. rewrite <- L, bytes_eqb_refl. reflexivity.
  - intros ND k v I A. rewrite setOwners_get.
    assert (F : find (fun o => bytes_eqb k (LabelName (kube.OwnerType o)))
                  (rev (kube.Owners info)) = None).
    { destruct (find _ (rev (kube.Owners info))) as [o'|] eqn:F; [|reflexivity].
      apply find_some in F. destruct F as [I' B].
      apply bytes_eqb_eq in B. apply in_rev in I'.
      exfalso. exact (A o' I' (eq_sym B)). }
    rewrite F. clear F A.
    unfold transform.attrs_get.
    destruct (NoDup_five _ _ _ _ _ ND)
      as [D12 [D13 [D14 [D15 [D23 [D24 [D25 [D34 [D35 D45]]]]]]]]].
    simpl in I.
    destruct I as [I|[I|[I|[I|[I|[]]]]]]; injection I as <- <-; simpl;
      rewrite ?bytes_eqb_refl;
      repeat match goal with
      | |- context [bytes_eqb ?a ?b] =>
          rewrite (bytes_eqb_neq a b)
            by first [ assumption | apply not_eq_sym; assumption ]
      end; try reflexivity.
Qed.

(** ** More of the Host header *)

(** [hostFromBuf] on a buffer whose first Host header has the value [v]. *)
Lemma hostFromBuf_value (event : BPFHTTPInfo) (pre v rest : bytes) :
  cstr (Buf event) = pre ++ list_ascii_of_string "Host: " ++ v ++ rest ->
  Go.Index (cstr (Buf event)) (list_ascii_of_string "Host: ") = len pre ->
  existsb isCR v = false ->
  rest = [] \/ Go.headIs isCR rest = true ->
  hostFromBuf event =
  match Go.SplitHostPort v with
  | None => ([], -1)
  | Some (h, portStr) => (h, fst (Go.Atoi portStr))
  end.
Proof.
  intros T I C R. rewrite hostFromBuf_spec. unfold hostHeaderValue.
  rewrite <- cstr_upTo, I.
  pose proof (len_nonneg pre) as P.
  destruct (len pre <? 0) eqn:L; [lia|]. clear L.
  rewrite T.
  replace (Z.to_nat (len pre + 6))
    with (List.length pre + List.length (list_ascii_of_string "Host: "))%nat
    by (unfold len; simpl; lia).
  rewrite app_assoc, skipn_app, skipn_all2 by (rewrite length_app; lia).
  rewrite length_app.
  replace (List.length pre + List.length (list_ascii_of_string "Host: ")
           - (List.length pre + List.length (list_ascii_of_string "Host: ")))%nat
    with 0%nat by lia.
  simpl skipn at 1. rewrite app_nil_l.
  now rewrite (upTo_stop isCR v rest C R).
Qed.

Lemma ports_zero_host (record : bytes) (event : BPFHTTPInfo) (h : bytes) (n : Z) :
  binary_Read_BPFHTTPInfo record = Some event ->
  S_port (ConnInfo event) = 0 ->
  D_port (ConnInfo event) = 0 ->
  hostFromBuf event = (h, n) ->
  0 <= n ->
  exists s : request.Span,
    ReadHTTPInfoIntoSpan record = Returns (s, false, Go.nil) /\
    request.Host s = h /\
    request.HostPort s = n mod 2 ^ 16 /\
    request.Peer s = [].
Proof.
  intros D SP0 DP0 HF N.
  destruct (ReadHTTPInfoIntoSpan_decoded record event D)
    as [s [E [_ [_ [_ [_ [_ HR]]]]]]].
  exists s. split; [exact E|].
  unfold resolvedHost in HR. rewrite SP0, DP0, HF in HR. simpl negb in HR.
  cbv iota beta in HR. simpl orb in HR. cbv iota in HR.
  destruct (0 <=? n) eqn:L; [|lia].
  injection HR as H0 H1 H2. split; [exact H0|]. split; [exact H2 | exact H1].
Qed.

Lemma IndexByte_first (m : bytes) (c : ascii) (r : bytes) :
  existsb (Ascii.eqb c) m = false -> Go.IndexByte (m ++ c :: r) c = len m.
Proof.
  intros H. rewrite IndexByte_upTo.
  rewrite existsb_app. simpl. rewrite Ascii.eqb_refl, orb_true_r.
  rewrite upTo_app by exact H. simpl. rewrite Ascii.eqb_refl.
  now rewrite app_nil_r.
Qed.

Lemma skipn_len_app (a b : bytes) (n : Z) :
  n = len a -> skipn (Z.to_nat n) (a ++ b) = b.
Proof.
  intros ->. unfold len. rewrite Nat2Z.id, skipn_app, skipn_all, Nat.sub_diag.
  reflexivity.
Qed.

(** [net.SplitHostPort] gives back a host in square brackets and a port. *)
Lemma SplitHostPort_join_bracket (h p : bytes) :
  existsb (Ascii.eqb "["%char) h = false ->
  existsb (Ascii.eqb "]"%char) h = false ->
  existsb splitsHostPort p = false ->
  Go.SplitHostPort ("["%char :: h ++ "]"%char :: ":"%char :: p) = Some (h, p).
Proof.
  intros Ho Hc Hp. unfold Go.SplitHostPort.
  assert (C : forall x, In x [":"; "["; "]"]%char -> existsb (Ascii.eqb x) p = false).
  { intros x Hx. now apply splitsHostPort_byte. }
  pose proof (C ":"%char (or_introl eq_refl)) as Pc.
  pose proof (C "["%char (or_intror (or_introl eq_refl))) as Po.
  pose proof (C "]"%char (or_intror (or_intror (or_introl eq_refl)))) as Pk.
  set (hp := "["%char :: h ++ "]"%char :: ":"%char :: p).
  assert (E1 : hp = ("["%char :: h ++ ["]"%char]) ++ ":"%char :: p).
  { unfold hp. simpl. rewrite <- app_assoc. reflexivity. }
  assert (E2 : hp = ("["%char :: h) ++ "]"%char :: ":"%char :: p) by reflexivity.
  assert (I : Go.LastIndexByte hp ":" = len h + 2).
  { rewrite E1, (LastIndexByte_last _ ":" p Pc). unfold len. simpl List.length.
    rewrite length_app. simpl. lia. }
  assert (K : Go.IndexByte hp "]" = len h + 1).
  { rewrite E2, IndexByte_first by (simpl; exact Hc).
    unfold len. simpl List.length. lia. }
  assert (N : len hp = len h + 3 + len p).
  { unfold hp, len. simpl List.length. rewrite length_app. simpl List.length. lia. }
  pose proof (len_nonneg h) as Ph. pose proof (len_nonneg p) as Pp.
  rewrite I, K, N.
  destruct (len h + 2 <? 0) eqn:L0; [lia|]. clear L0.
  change (Go.headIs (Ascii.eqb "[") hp) with true. cbv iota.
  destruct (len h + 1 <? 0) eqn:L1; [lia|]. clear L1.
  destruct (len h + 1 + 1 =? len h + 3 + len p) eqn:L2; [lia|]. clear L2.
  destruct (len h + 1 + 1 =? len h + 2) eqn:L3; [|lia]. clear L3.
  cbv iota beta.
  rewrite <- N, !slice_to_end.
  assert (S1 : skipn (Z.to_nat 1) hp = h ++ "]"%char :: ":"%char :: p) by reflexivity.
  assert (S2 : skipn (Z.to_nat (len h + 1 + 1)) hp = ":"%char :: p).
  { rewrite E1. apply skipn_len_app. unfold len. simpl List.length.
    rewrite length_app. simpl. lia. }
  assert (S3 : skipn (Z.to_nat (len h + 2 + 1)) hp = p).
  { replace hp with (("["%char :: h ++ ["]"%char; ":"%char]) ++ p)
      by (unfold hp; simpl; rewrite <- app_assoc; reflexivity).
    apply skipn_len_app. unfold len. simpl List.length.
    rewrite length_app. simpl. lia. }
  rewrite S1, S2, S3.
  rewrite (IndexByte_absent (h ++ "]"%char :: ":"%char :: p) "[")
    by (rewrite existsb_app; simpl; now rewrite Ho, Po).
  rewrite (IndexByte_absent (":"%char :: p) "]") by (simpl; exact Pk).
  change (0 <=? -1) with false. cbv iota.
  f_equal. f_equal.
  unfold slice. rewrite S1.
  replace (Z.to_nat (len h + 1 - 1)) with (List.length h) by (unfold len; lia).
  rewrite firstn_app, Nat.sub_diag, firstn_all. simpl. apply app_nil_r.
Qed.

(** X17. A Host header with an address in square brackets is read back
    without the brackets: of ["Host: [h]:port"], where [h] holds no square
    bracket or carriage return and may hold colons, as an IPv6 address does,
    [hostFromBuf] returns [h] and the number of the port. *)
Theorem bracketed_host_round_trip
    (record : bytes) (event : BPFHTTPInfo) (pre h p rest : bytes) :
  binary_Read_BPFHTTPInfo record = Some event ->
  S_port (ConnInfo event) = 0 ->
  D_port (ConnInfo event) = 0 ->
  cstr (Buf event)
    = pre ++ list_ascii_of_string "Host: "
        ++ ("["%char :: h ++ "]"%char :: ":"%char :: p) ++ rest ->
  Go.Index (cstr (Buf event)) (list_ascii_of_string "Host: ") = len pre ->
  existsb (Ascii.eqb "["%char) h = false ->
  existsb (Ascii.eqb "]"%char) h = false ->
  existsb isCR h = false ->
  p <> [] ->
  forallb Go.isDigit p = true ->
  Go.digitsValue p <= Go.maxInt ->
  rest = [] \/ Go.headIs isCR rest = true ->
  hostFromBuf event = (h, Go.digitsValue p) /\
  exists s : request.Span,
    ReadHTTPInfoIntoSpan record = Returns (s, false, Go.nil) /\
    request.Host s = h /\
    request.HostPort s = Go.digitsValue p mod 2 ^ 16 /\
    request.Peer s = [].
Proof.
  intros D SP0 DP0 T I Ho Hc Ch Pne Pd Pm R.
  destruct (digits_are_plain p Pd) as [Sp Cp].
  assert (HF : hostFromBuf event = (h, Go.digitsValue p)).
  { rewrite (hostFromBuf_value event pre _ rest T I); [|
      simpl; rewrite existsb_app; simpl; now rewrite Ch, Cp | exact R].
    rewrite (SplitHostPort_join_bracket h p Ho Hc Sp).
    now rewrite (Atoi_digits p Pne Pd Pm). }
  split; [exact HF|].
  apply (ports_zero_host record event h _ D SP0 DP0 HF).
  now apply digitsValue_nonneg.
Qed.

(** X18. A port that is no number does not fail the header.  When the
    port of the Host header is empty or begins with a byte that is neither a
    digit nor a sign, the error of [strconv.Atoi] is dropped: [hostFromBuf]
    returns the host with the port 0, and the span has that host and the
    port 0. *)
Theorem host_with_port_that_is_no_number
    (record : bytes) (event : BPFHTTPInfo) (pre h p rest : bytes) :
  binary_Read_BPFHTTPInfo record = Some event ->
  S_port (ConnInfo event) = 0 ->
  D_port (ConnInfo event) = 0 ->
  cstr (Buf event)
    = pre ++ list_ascii_of_string "Host: " ++ (h ++ ":"%char :: p) ++ rest ->
  Go.Index (cstr (Buf event)) (list_ascii_of_string "Host: ") = len pre ->
  existsb splitsHostPort h = false ->
  existsb isCR h = false ->
  existsb splitsHostPort p = false ->
  existsb isCR p = false ->
  p = [] \/ Go.headIs startsNoNumber p = true ->
  rest = [] \/ Go.headIs isCR rest = true ->
  hostFromBuf event = (h, 0) /\
  exists s : request.Span,
    ReadHTTPInfoIntoSpan record = Returns (s, false, Go.nil) /\
    request.Host s = h /\
    request.HostPort s = 0.
Proof.
  intros D SP0 DP0 T I Hh Ch Hp Cp Pn R.
  assert (A : fst (Go.Atoi p) = 0).
  { destruct Pn as [->|Pn]; [reflexivity|].
    destruct p as [|c t]; [discriminate|].
    simpl in Pn. unfold startsNoNumber in Pn.
    apply andb_true_iff in Pn. destruct Pn as [Pn Pplus].
    apply andb_true_iff in Pn. destruct Pn as [Pd Pminus].
    apply negb_true_iff in Pd, Pminus, Pplus.
    unfold Go.Atoi. rewrite Pminus, Pplus. simpl forallb. rewrite Pd. reflexivity. }
  assert (HF : hostFromBuf event = (h, 0)).
  { rewrite (hostFromBuf_value event pre _ rest T I); [|
      rewrite existsb_app; simpl; now rewrite Ch, Cp | exact R].
    rewrite (SplitHostPort_join h p Hh Hp). now rewrite A. }
  split; [exact HF|].
  destruct (ports_zero_host record event h 0 D SP0 DP0 HF ltac:(lia))
    as [s [E [H0 [H1 _]]]].
  exists s. split; [exact E|]. split; [exact H0 | exact H1].
Qed.

End Readers.

(** ** The theorems at sample records *)

(** Scenario 1 of the specification: method, path, host, port and status of
    a GET with a query and a Host header, without connection information. *)
Example scenario_get_with_query :
  exists s : request.Span,
    ReadHTTPInfoIntoSpan rawAddress (decodesTo getWithQuery) [] =
      Returns (s, false, Go.nil) /\
    request.Method s = list_ascii_of_string "GET" /\
    request.Path s = list_ascii_of_string "/api/v1/users" /\
    request.Host s = list_ascii_of_string "svc" /\
    request.HostPort s = 8080 /\
    request.Status s = 200.
Proof.
  eexists. split; [vm_compute; reflexivity|]. vm_compute. repeat split.
Qed.

(** Scenario 2 of the specification: with connection information the host
    and the peer are the addresses and the port is the destination port. *)
Example scenario_post_with_connection :
  exists s : request.Span,
    ReadHTTPInfoIntoSpan rawAddress (decodesTo postWithConn) [] =
      Returns (s, false, Go.nil) /\
    request.Method s = list_ascii_of_string "POST" /\
    request.Path s = list_ascii_of_string "/x" /\
    request.Peer s = ipv4 10 0 0 1 /\
    request.Host s = ipv4 10 0 0 2 /\
    request.HostPort s = 443.
Proof.
  eexists. split; [vm_compute; reflexivity|]. vm_compute. repeat split.
Qed.

(** Scenario 3 of the specification: the statement is found after three
    bytes of framing. *)
Example scenario_noisy_select :
  exists s : request.Span,
    ReadTCPRequestIntoSpan noCaseRanges rawAddress namesNothing
      (decodesTo (tcpEvent noisySelect)) [] = Returns (s, false, Go.nil) /\
    request.Type_ s = request.EventTypeSQLClient /\
    request.Statement s = list_ascii_of_string "SELECT id FROM users WHERE x=1".
Proof.
  eexists. split; [vm_compute; reflexivity|]. vm_compute. repeat split.
Qed.

(** Scenario 6 of the specification: lockdown integrity on a kernel 5.15. *)
Example scenario_lockdown_integrity :
  KernelLockdownMode integrityKernel = KernelLockdownIntegrity /\
  SupportsContextPropagation integrityKernel = false.
Proof. split; reflexivity. Qed.

(** A buffer whose first space comes after its first zero byte: the method
    runs to that space and holds the zero byte; the URL is empty. *)
Example method_past_the_zero_terminator :
  method zeroBeforeSpace = list_ascii_of_string "GET" ++ [NUL] /\
  url zeroBeforeSpace = [].
Proof. split; reflexivity. Qed.

(** C1, the claim at a record whose start is after its end: the span builder
    returns a span with these times. *)
Lemma late_start_is_not_discarded :
  EndMonotimeNs (Info lateStartInfo) < StartMonotimeNs (Info lateStartInfo) /\
  request.Start (httpInfoToSpan lateStartInfo) = 20 /\
  request.End_ (httpInfoToSpan lateStartInfo) = 10 /\
  exists s : request.Span,
    ReadHTTPInfoIntoSpan rawAddress (decodesTo lateStart) [] =
      Returns (s, false, Go.nil) /\
    request.End_ s < request.Start s.
Proof.
  split; [reflexivity|]. split; [reflexivity|]. split; [reflexivity|].
  eexists. split; [vm_compute; reflexivity|]. reflexivity.
Qed.

(** C1 (amended) at the record of scenario 1. *)
Lemma span_times_at_get_with_query :
  exists s : request.Span,
    ReadHTTPInfoIntoSpan rawAddress (decodesTo getWithQuery) [] =
      Returns (s, false, Go.nil) /\
    request.Start s = 10 /\
    request.End_ s = 20.
Proof.
  destruct (span_times_are_the_records rawAddress namesNothing (decodesTo getWithQuery))
    as [_ [_ H]].
  exact (H [] getWithQuery eq_refl).
Defined.

(** C2, the claim at a buffer with two verbs: DROP occurs first, at index 0,
    and [isSQL] returns the index of SELECT. *)
Lemma later_select_wins_over_earlier_drop :
  Go.Index (Go.ToUpper noCaseRanges dropThenSelect) (list_ascii_of_string "DROP") = 0 /\
  Go.Index (Go.ToUpper noCaseRanges dropThenSelect) (list_ascii_of_string "SELECT") = 14 /\
  earliestOf (Go.ToUpper noCaseRanges dropThenSelect) sqlVerbs = 0 /\
  isSQL noCaseRanges dropThenSelect = 14.
Proof. repeat split. Qed.

(** C2 (amended) at the record of scenario 3. *)
Lemma noisy_select_is_cut_at_index :
  ReadTCPRequestIntoSpan noCaseRanges rawAddress namesNothing
    (decodesTo (tcpEvent noisySelect)) [] =
  Returns (TCPToSQLToSpan rawAddress namesNothing (tcpEvent noisySelect)
             (skipn 3 noisySelect), false, Go.nil).
Proof.
  destruct (isSQL_first_verb_in_list_order noCaseRanges rawAddress namesNothing
              (decodesTo (tcpEvent noisySelect))) as [_ [_ H]].
  apply (H [] (tcpEvent noisySelect) eq_refl); [reflexivity|].
  vm_compute. discriminate.
Defined.



(** C4, the claim at a URL that begins with its query: the text before the
    first ['?'] is empty, and [removeQuery] returns the URL whole. *)
Lemma leading_query_is_kept :
  removeQuery (list_ascii_of_string "?a=1") = list_ascii_of_string "?a=1" /\
  spec_removeQuery (list_ascii_of_string "?a=1") = [] /\
  removeQuery (list_ascii_of_string "?a=1")
    <> spec_removeQuery (list_ascii_of_string "?a=1").
Proof. split; [reflexivity|]. split; [reflexivity|]. discriminate. Qed.

(** C4 (amended) at the record of scenario 1. *)
Lemma path_at_get_with_query :
  exists s : request.Span,
    ReadHTTPInfoIntoSpan rawAddress (decodesTo getWithQuery) [] =
      Returns (s, false, Go.nil) /\
    request.Path s = list_ascii_of_string "/api/v1/users".
Proof.
  destruct (span_path_of_request_line rawAddress (decodesTo getWithQuery)) as [H _].
  exact (H [] getWithQuery eq_refl).
Defined.

(** C5, the claim at a buffer of 160 bytes with a tab in the request target:
    the span's path holds the tab, a control character. *)
Lemma tab_stays_in_path :
  List.length (Buf tabInPath) = 160%nat /\
  isControl TAB = true /\
  exists s : request.Span,
    ReadHTTPInfoIntoSpan rawAddress (decodesTo tabInPath) [] =
      Returns (s, false, Go.nil) /\
    request.Path s = list_ascii_of_string "/a" ++ [TAB] ++ list_ascii_of_string "b" /\
    existsb isControl (request.Path s) = true.
Proof.
  split; [reflexivity|]. split; [reflexivity|].
  eexists. split; [vm_compute; reflexivity|]. split; reflexivity.
Qed.

(** C5 (amended) at the record with the tab. *)
Lemma method_and_path_bytes_at_tab :
  exists s : request.Span,
    ReadHTTPInfoIntoSpan rawAddress (decodesTo tabInPath) [] =
      Returns (s, false, Go.nil) /\
    (forall c, In c (request.Method s) -> c <> SP) /\
    (forall c, In c (request.Path s) ->
               c <> SP /\ c <> CR /\ c <> LF /\ c <> NUL).
Proof.
  exact (span_method_and_path_bytes rawAddress (decodesTo tabInPath) [] tabInPath eq_refl).
Defined.

(** C6, the claim at a kernel 5.15 with lockdown None and the override flag
    set: the specification's words give false, the code gives true. *)
Lemma override_flag_is_not_read :
  IntegrityModeOverride overriddenKernel = true /\
  KernelLockdownMode overriddenKernel = KernelLockdownNone /\
  spec_context_propagation overriddenKernel = false /\
  SupportsContextPropagation overriddenKernel = true.
Proof. repeat split. Qed.

(** C10 at the failing input, with a case table that has no entry. *)
Lemma invalid_utf8_before_verb_panics_at_sample :
  isSQL noCaseRanges (clampedPrefix (tcpEvent invalidUTF8ThenDrop)) = 12 /\
  len (clampedPrefix (tcpEvent invalidUTF8ThenDrop)) = 8 /\
  ReadTCPRequestIntoSpan noCaseRanges rawAddress namesNothing
    (decodesTo (tcpEvent invalidUTF8ThenDrop)) [] = Panics.
Proof.
  exact (invalid_utf8_before_verb_panics noCaseRanges rawAddress namesNothing
           (decodesTo (tcpEvent invalidUTF8ThenDrop)) []
           (tcpEvent invalidUTF8ThenDrop) eq_refl eq_refl eq_refl).
Defined.

(** A verb inside a longer word yields a span of kind SQL client. *)
Lemma verb_inside_word_is_sql :
  exists s : request.Span,
    ReadTCPRequestIntoSpan noCaseRanges rawAddress namesNothing
      (decodesTo (tcpEvent verbInsideWord)) [] = Returns (s, false, Go.nil) /\
    request.Type_ s = request.EventTypeSQLClient /\
    request.Statement s = list_ascii_of_string "delete".
Proof.
  apply (ascii_payload_with_verb_is_sql noCaseRanges rawAddress namesNothing
           (decodesTo (tcpEvent verbInsideWord)) [] (tcpEvent verbInsideWord)
           (list_ascii_of_string "DELETE")).
  - reflexivity.
  - reflexivity.
  - right. right. left. reflexivity.
  - reflexivity.
Defined.

(** Scenario 4 of the specification: a payload without a verb is ignored. *)
Lemma binary_junk_is_ignored :
  ReadTCPRequestIntoSpan noCaseRanges rawAddress namesNothing
    (decodesTo (tcpEvent binaryJunk)) [] = Returns (request.zero, true, Go.nil).
Proof.
  apply (payload_without_verb_is_ignored noCaseRanges rawAddress namesNothing
           (decodesTo (tcpEvent binaryJunk)) [] (tcpEvent binaryJunk)).
  - reflexivity.
  - intros q H. simpl in H.
    repeat (destruct H as [<-|H]; [reflexivity|]). destruct H.
Defined.

(** ** More sample records *)

(** X5 at the record of scenario 1. *)
Lemma request_line_of_get_with_query :
  method getWithQuery = list_ascii_of_string "GET" /\
  url getWithQuery = list_ascii_of_string "/api/v1/users?active=true" /\
  exists s : request.Span,
    ReadHTTPInfoIntoSpan rawAddress (decodesTo getWithQuery) [] =
      Returns (s, false, Go.nil) /\
    request.Method s = list_ascii_of_string "GET" /\
    request.Path s = removeQuery (list_ascii_of_string "/api/v1/users?active=true").
Proof.
  apply (request_line_round_trip rawAddress (decodesTo getWithQuery) [] getWithQuery
           (list_ascii_of_string "GET")
           (list_ascii_of_string "/api/v1/users?active=true")
           (skipn 29 (Buf getWithQuery))).
  - reflexivity.
  - reflexivity.
  - reflexivity.
  - reflexivity.
  - reflexivity.
  - right. reflexivity.
Defined.

(** X7 at the record of scenario 1. *)
Lemma host_header_of_get_with_query :
  hostFromBuf getWithQuery = (list_ascii_of_string "svc", 8080) /\
  exists s : request.Span,
    ReadHTTPInfoIntoSpan rawAddress (decodesTo getWithQuery) [] =
      Returns (s, false, Go.nil) /\
    request.Host s = list_ascii_of_string "svc" /\
    request.HostPort s = 8080 /\
    request.Peer s = [].
Proof.
  apply (host_header_round_trip rawAddress (decodesTo getWithQuery) [] getWithQuery
           (list_ascii_of_string "GET /api/v1/users?active=true HTTP/1.1" ++ CRLF)
           (list_ascii_of_string "svc") (list_ascii_of_string "8080")
           (CRLF ++ CRLF)).
  - reflexivity.
  - reflexivity.
  - reflexivity.
  - reflexivity.
  - reflexivity.
  - reflexivity.
  - reflexivity.
  - discriminate.
  - reflexivity.
  - vm_compute. discriminate.
  - right. reflexivity.
Defined.

(** X8 at the record of scenario 2. *)
Lemma port_of_post_with_connection :
  exists s : request.Span,
    ReadHTTPInfoIntoSpan rawAddress (decodesTo postWithConn) [] =
      Returns (s, false, Go.nil) /\
    0 <= request.HostPort s <= 65535.
Proof.
  eexists. split; [vm_compute; reflexivity|].
  apply (http_span_port_in_range rawAddress (decodesTo postWithConn) [] postWithConn).
  - reflexivity.
  - vm_compute. split; [discriminate | reflexivity].
  - vm_compute. reflexivity.
Defined.

(** X9 at the record of scenario 3. *)
Lemma shape_of_noisy_select :
  exists s : request.Span,
    ReadTCPRequestIntoSpan noCaseRanges rawAddress namesNothing
      (decodesTo (tcpEvent noisySelect)) [] = Returns (s, false, Go.nil) /\
    request.Type_ s = request.EventTypeSQLClient /\
    request.Status s = 0 /\
    request.ContentLength s = 0 /\
    (forall c, In c (request.Statement s) -> c <> NUL) /\
    (exists pre post,
        clampedPrefix (tcpEvent noisySelect) = pre ++ request.Statement s ++ post /\
        len pre = isSQL noCaseRanges (clampedPrefix (tcpEvent noisySelect))) /\
    (request.Method s, request.Path s) = namesNothing (request.Statement s) /\
    (request.Peer s, request.Host s, request.HostPort s) = ([], [], 0).
Proof.
  eexists. split; [vm_compute; reflexivity|].
  apply (tcp_span_shape noCaseRanges rawAddress namesNothing
           (decodesTo (tcpEvent noisySelect)) [] (tcpEvent noisySelect)).
  - reflexivity.
  - vm_compute. reflexivity.
Defined.


(** X13 at a process table with one process. *)
Example commName_of_nginx :
  procPath 4242 = list_ascii_of_string "/proc/4242/comm" /\
  commName oneProcessStat oneProcessRead noUnicodeTrim noUnicodeTrim 4242
    = list_ascii_of_string "nginx" /\
  commName oneProcessStat oneProcessRead noUnicodeTrim noUnicodeTrim 1 = [].
Proof.
  split; [reflexivity|].
  destruct (commName_of_proc_file oneProcessStat oneProcessRead
              noUnicodeTrim noUnicodeTrim 4242) as [_ [_ H]].
  destruct (commName_of_proc_file oneProcessStat oneProcessRead
              noUnicodeTrim noUnicodeTrim 1) as [H1 _].
  split.
  - apply (H [] (list_ascii_of_string "nginx") [LF]);
      try reflexivity. discriminate.
  - apply H1. reflexivity.
Defined.

(** X16 at a pod of a replica set that a deployment owns. *)
Example metadata_of_sample_pod :
  exists m : transform.attrs,
    transform.Metadata
      (appendMetadata bytes kindLabel samplePodName
         (list_ascii_of_string "k8s.namespace.name")
         (list_ascii_of_string "k8s.pod.name")
         (list_ascii_of_string "k8s.node.name")
         (list_ascii_of_string "k8s.pod.uid")
         (list_ascii_of_string "k8s.pod.start_time")
         autoNamedService samplePod) = Some m /\
    transform.attrs_get (list_ascii_of_string "k8s.deployment.name") m
      = Some (list_ascii_of_string "web") /\
    transform.attrs_get (list_ascii_of_string "k8s.pod.name") m
      = Some (list_ascii_of_string "web-5d4f-x2x").
Proof.
  destruct (appendMetadata_metadata bytes kindLabel samplePodName
              (list_ascii_of_string "k8s.namespace.name")
              (list_ascii_of_string "k8s.pod.name")
              (list_ascii_of_string "k8s.node.name")
              (list_ascii_of_string "k8s.pod.uid")
              (list_ascii_of_string "k8s.pod.start_time")
              autoNamedService samplePod) as [m [E [O P]]].
  exists m. split; [exact E|]. split.
  - apply (O _ [kube.mkOwner (list_ascii_of_string "replicaset")
                  (list_ascii_of_string "web-5d4f")]
             (kube.mkOwner (list_ascii_of_string "deployment")
                (list_ascii_of_string "web")) []).
    + reflexivity.
    + reflexivity.
    + intros o' [].
  - apply P.
    + repeat constructor; simpl; intros H;
        repeat (destruct H as [H|H]; [discriminate H|]); exact H.
    + right. left. reflexivity.
    + intros o H. simpl in H.
      destruct H as [<-|[<-|[]]]; discriminate.
Defined.

(** X17 at a request for an IPv6 host. *)
Lemma host_header_of_bracketed_host :
  hostFromBuf bracketedHost = (list_ascii_of_string "::1", 8080) /\
  exists s : request.Span,
    ReadHTTPInfoIntoSpan rawAddress (decodesTo bracketedHost) [] =
      Returns (s, false, Go.nil) /\
    request.Host s = list_ascii_of_string "::1" /\
    request.HostPort s = 8080 /\
    request.Peer s = [].
Proof.
  apply (bracketed_host_round_trip rawAddress (decodesTo bracketedHost) [] bracketedHost
           (list_ascii_of_string "GET / HTTP/1.1" ++ CRLF)
           (list_ascii_of_string "::1") (list_ascii_of_string "8080")
           (CRLF ++ CRLF));
    try reflexivity.
  - discriminate.
  - vm_compute. discriminate.
  - right. reflexivity.
Defined.

(** X18 at a request whose port is a word. *)
Lemma host_header_of_word_port :
  hostFromBuf wordPort = (list_ascii_of_string "svc", 0) /\
  exists s : request.Span,
    ReadHTTPInfoIntoSpan rawAddress (decodesTo wordPort) [] =
      Returns (s, false, Go.nil) /\
    request.Host s = list_ascii_of_string "svc" /\
    request.HostPort s = 0.
Proof.
  apply (host_with_port_that_is_no_number rawAddress (decodesTo wordPort) [] wordPort
           (list_ascii_of_string "GET / HTTP/1.1" ++ CRLF)
           (list_ascii_of_string "svc") (list_ascii_of_string "http")
           (CRLF ++ CRLF));
    try reflexivity.
  - right. reflexivity.
  - right. reflexivity.
Defined.

(** X10 at a record with a negative length: the whole buffer is
    classified, and the reader returns. *)
Example negative_len_is_clamped :
  clampedPrefix negativeLen = tcp_Buf negativeLen /\
  ReadTCPRequestIntoSpan noCaseRanges rawAddress namesNothing
    (decodesTo negativeLen) [] <> Panics.
Proof.
  destruct (ascii_buffer_never_panics noCaseRanges rawAddress namesNothing
              (decodesTo negativeLen)) as [C N].
  split.
  - apply C. left. reflexivity.
  - apply N. intros event [= <-]. reflexivity.
Defined.

(** X12 at a kernel 5.15 and at a kernel 6.1. *)
Example version_gates_at_samples :
  SupportsEBPFLoops integrityKernel = false /\
  SupportsEBPFLoops recentKernel = true /\
  SupportsContextPropagation recentKernel = true.
Proof.
  split; [reflexivity|]. split; [reflexivity|].
  destruct (version_gates recentKernel) as [_ H].
  rewrite (H eq_refl). reflexivity.
Defined.

(** X14 at the value TRUE. *)
Example Enabled_in_upper_case :
  Enabled noCaseRanges (fun _ => false)
    (transform.mkKubernetesDecorator (list_ascii_of_string "TRUE") [] [] 0 false)
  = true.
Proof.
  destruct (Enabled_values noCaseRanges (fun _ => false)
              (list_ascii_of_string "true") [] [] 0 false) as [V U].
  change (list_ascii_of_string "TRUE")
    with (map Go.upperByte (list_ascii_of_string "true")).
  rewrite (U eq_refl). apply V. left. reflexivity.
Defined.

(** X15 at a process of the sample pod and at a process of no pod. *)
Example do_at_samples :
  transform.Name
    (do bytes kindLabel samplePodName
       (list_ascii_of_string "k8s.namespace.name")
       (list_ascii_of_string "k8s.pod.name")
       (list_ascii_of_string "k8s.node.name")
       (list_ascii_of_string "k8s.pod.uid")
       (list_ascii_of_string "k8s.pod.start_time")
       onePod 4026531836 autoNamedService) = list_ascii_of_string "web" /\
  do bytes kindLabel samplePodName
    (list_ascii_of_string "k8s.namespace.name")
    (list_ascii_of_string "k8s.pod.name")
    (list_ascii_of_string "k8s.node.name")
    (list_ascii_of_string "k8s.pod.uid")
    (list_ascii_of_string "k8s.pod.start_time")
    noPods 4026531836 autoNamedService
  = transform.mkServiceID (list_ascii_of_string "java") [] [] true (Some []).
Proof.
  split; [reflexivity|].
  destruct (do_decorates_once bytes kindLabel samplePodName
              (list_ascii_of_string "k8s.namespace.name")
              (list_ascii_of_string "k8s.pod.name")
              (list_ascii_of_string "k8s.node.name")
              (list_ascii_of_string "k8s.pod.uid")
              (list_ascii_of_string "k8s.pod.start_time")
              noPods 4026531836 autoNamedService) as [_ [_ [_ [_ [_ H]]]]].
  exact (H eq_refl).
Defined.
